(** * Simple Traces example clients: a shallow embedding

    The repository slice holds three Python scripts:
    - [examples/client.py]: posts one JSON trace record per call with
      [requests.post];
    - [examples/python_otlp_client.py] and [examples/otel-client.py]: send
      spans through the OpenTelemetry SDK.

    Python values are a small inductive type, exceptions carry their class,
    and every function of the scripts is a computation in a state-and-exception
    monad over the process's observable history (the requests it sent, the
    lines it printed, the SDK calls it made).  The remote endpoint and the SDK
    are oracles: they decide what each external call returns or raises. *)

From Stdlib Require Import ZArith Floats.
From stdpp Require Import base strings gmap list.

Set Warnings "-inexact-float,-register-all".
Local Open Scope Z_scope.

(** ** Python values *)

Inductive pyval : Type :=
| PyNone
| PyBool (b : bool)
| PyInt (n : Z)
| PyFloat (x : float)
| PyStr (s : string)
| PyList (xs : list pyval)
| PyDict (kvs : list (string * pyval)).

(** [bool(v)]: None, False, zero, and empty containers are falsy. *)
Definition truthy (v : pyval) : bool :=
  match v with
  | PyNone => false
  | PyBool b => b
  | PyInt n => negb (n =? 0)
  | PyFloat x => negb (PrimFloat.eqb x 0%float)
  | PyStr EmptyString => false
  | PyStr _ => true
  | PyList [] => false
  | PyList _ => true
  | PyDict [] => false
  | PyDict _ => true
  end.

(** What the JSON encoder of requests accepts ([json.dumps] with
    [allow_nan=False]): every float in the value, at any depth, is finite. *)
Fixpoint json_serializable (v : pyval) : bool :=
  match v with
  | PyFloat x => PrimFloat.is_finite x
  | PyList xs => forallb json_serializable xs
  | PyDict kvs => forallb (fun '(_, x) => json_serializable x) kvs
  | _ => true
  end.

(** A dict keeps insertion order; [d[k] = v] overwrites in place or appends. *)
Fixpoint dict_get (d : list (string * pyval)) (k : string) : option pyval :=
  match d with
  | [] => None
  | (k', v) :: rest => if String.eqb k' k then Some v else dict_get rest k
  end.

Fixpoint dict_setitem (d : list (string * pyval)) (k : string) (v : pyval)
  : list (string * pyval) :=
  match d with
  | [] => [(k, v)]
  | (k', v') :: rest =>
      if String.eqb k' k then (k', v) :: rest
      else (k', v') :: dict_setitem rest k v
  end.

Definition dict_keys (d : list (string * pyval)) : list string := map fst d.

(** ** Exceptions *)

Inductive exn_class : Type :=
| BaseException | Exception | KeyboardInterrupt | SystemExit
| LookupError | KeyError | TypeError | ValueError | RuntimeError | OSError
| RequestException | ConnectionError | HTTPError | Timeout | InvalidJSONError.

#[global] Instance exn_class_eq_dec : EqDecision exn_class.
Proof. solve_decision. Defined.

(** The direct base class, as in the builtins and in [requests.exceptions]. *)
Definition base_class (c : exn_class) : option exn_class :=
  match c with
  | BaseException => None
  | Exception | KeyboardInterrupt | SystemExit => Some BaseException
  | LookupError | TypeError | ValueError | RuntimeError | OSError =>
      Some Exception
  | KeyError => Some LookupError
  | RequestException => Some OSError
  | ConnectionError | HTTPError | Timeout | InvalidJSONError =>
      Some RequestException
  end.

Fixpoint issubclass_upto (fuel : nat) (c d : exn_class) : bool :=
  if decide (c = d) then true
  else match fuel, base_class c with
       | S fuel', Some b => issubclass_upto fuel' b d
       | _, _ => false
       end.

(** The hierarchy above is four levels deep. *)
Definition issubclass : exn_class -> exn_class -> bool := issubclass_upto 5.

Record exn : Type := Exn { exn_cls : exn_class; exn_args : list pyval }.

Definition isinstance (e : exn) (c : exn_class) : bool :=
  issubclass (exn_cls e) c.

(** ** Computations: state passing with exceptions *)

Inductive res (A : Type) : Type :=
| Ok (a : A)
| Raise (e : exn).
Arguments Ok {A} a.
Arguments Raise {A} e.

Definition M (W A : Type) : Type := W -> res A * W.

Definition ret {W A} (a : A) : M W A := fun w => (Ok a, w).

Definition raise {W A} (e : exn) : M W A := fun w => (Raise e, w).

Definition bind {W A B} (m : M W A) (k : A -> M W B) : M W B :=
  fun w =>
    match m w with
    | (Ok a, w') => k a w'
    | (Raise e, w') => (Raise e, w')
    end.

Notation "'let*' x ':=' c1 'in' c2" := (bind c1 (fun x => c2))
  (at level 10, x binder, c1 at level 100, c2 at level 200).

(** [try: body  except cls as e: handler e].  An exception that is not an
    instance of [cls] passes through. *)
Definition try_except {W A} (body : M W A) (cls : exn_class)
    (handler : exn -> M W A) : M W A :=
  fun w =>
    match body w with
    | (Ok a, w') => (Ok a, w')
    | (Raise e, w') =>
        if isinstance e cls then handler e w' else (Raise e, w')
    end.

(** [for x in xs: body x] *)
Fixpoint for_each {W A} (xs : list A) (body : A -> M W unit) : M W unit :=
  match xs with
  | [] => ret tt
  | x :: rest => let* _ := body x in for_each rest body
  end.

(** [v[k]] for a string key [k]. *)
Definition getitem_str (v : pyval) (k : string) : res pyval :=
  match v with
  | PyDict kvs =>
      match dict_get kvs k with
      | Some x => Ok x
      | None => Raise (Exn KeyError [PyStr k])
      end
  | _ => Raise (Exn TypeError [])
  end.

(** A printed line: the literal parts of an f-string and the values it
    formats, in order. *)
Inductive piece : Type :=
| Lit (s : string)
| Fmt (v : pyval)
| FmtExn (e : exn).

Definition newline : string := String (Ascii.ascii_of_nat 10) "".
Definition dquote : string := String (Ascii.ascii_of_nat 34) "".

(** [s * n] *)
Fixpoint str_mul (s : string) (n : nat) : string :=
  match n with
  | O => ""
  | S n' => s +:+ str_mul s n'
  end.

(** ** examples/client.py *)

Module client.

Definition API_URL : string := "http://localhost:8080/api/traces".

(** What the script uses of a [requests.Response]: its status code and what
    [response.json()] gives (a parsed value, or the exception it raises). *)
Record Response : Type := { status_code : Z; json_result : res pyval }.

Inductive event : Type :=
| Post (url : string) (json : pyval)
| Print (line : list piece)
| Sleep (secs : float).

(** The history of the process, oldest event first. *)
Definition world : Type := list event.

Fixpoint posts_of (w : world) : list (string * pyval) :=
  match w with
  | [] => []
  | Post url json :: rest => (url, json) :: posts_of rest
  | _ :: rest => posts_of rest
  end.

(** The remote endpoint: what the [n]-th POST of the process meets. *)
Definition network : Type := nat -> string -> pyval -> res Response.

(** [Response.raise_for_status] of the requests library: an [HTTPError] for
    a 4xx or 5xx status, nothing otherwise. *)
Definition http_error (r : Response) : option exn :=
  if (400 <=? status_code r) && (status_code r <? 500)
  then Some (Exn HTTPError [PyInt (status_code r); PyStr "Client Error"])
  else if (500 <=? status_code r) && (status_code r <? 600)
  then Some (Exn HTTPError [PyInt (status_code r); PyStr "Server Error"])
  else None.

Definition print (line : list piece) : M world unit :=
  fun w => (Ok tt, w ++ [Print line]).

Definition sleep (secs : float) : M world unit :=
  fun w => (Ok tt, w ++ [Sleep secs]).

Definition build_payload
    (model input_text output_text prompt_tokens output_tokens duration_ms
       metadata : pyval) : list (string * pyval) :=
  let payload :=
    [ ("model", model);
      ("input", input_text);
      ("output", output_text);
      ("prompt_tokens", prompt_tokens);
      ("output_tokens", output_tokens);
      ("duration", duration_ms) ] in
  if truthy metadata then dict_setitem payload "metadata" metadata
  else payload.

Section with_network.
Variable net : network.

(** [requests.post(url, json=json)].  The body is encoded first: a value the
    encoder refuses raises [InvalidJSONError] and nothing is sent.  Otherwise
    the request goes out and the endpoint decides. *)
Definition requests_post (url : string) (json : pyval) : M world Response :=
  fun w =>
    if json_serializable json
    then (net (length (posts_of w)) url json, w ++ [Post url json])
    else (Raise (Exn InvalidJSONError
                   [PyStr "Out of range float values are not JSON compliant"]),
          w).

Definition raise_for_status (r : Response) : M world unit :=
  match http_error r with
  | Some e => raise e
  | None => ret tt
  end.

Definition response_json (r : Response) : M world pyval :=
  fun w => (json_result r, w).

Definition getitem (v : pyval) (k : string) : M world pyval :=
  fun w => (getitem_str v k, w).

(** [metadata] is [PyNone] when the caller leaves it out. *)
Definition create_trace
    (model input_text output_text prompt_tokens output_tokens duration_ms
       metadata : pyval) : M world pyval :=
  let payload :=
    build_payload model input_text output_text prompt_tokens
      output_tokens duration_ms metadata in
  try_except
    (let* response := requests_post API_URL (PyDict payload) in
     let* _ := raise_for_status response in
     let* result := response_json response in
     let* id := getitem result "id" in
     let* _ := print [Lit "✓ Trace created: "; Fmt id] in
     ret result)
    RequestException
    (fun e =>
       let* _ := print [Lit "✗ Error creating trace: "; FmtExn e] in
       ret PyNone).

Definition main : M world unit :=
  let* _ :=
    create_trace
      (PyStr "gpt-4")
      (PyStr "What is machine learning?")
      (PyStr "Machine learning is a subset of artificial intelligence...")
      (PyInt 15) (PyInt 45) (PyInt 1200) PyNone in
  let* _ :=
    create_trace
      (PyStr "claude-3-opus")
      (PyStr "Explain quantum computing in simple terms")
      (PyStr "Quantum computing uses quantum mechanics principles...")
      (PyInt 20) (PyInt 60) (PyInt 1500)
      (PyDict [ ("user_id", PyStr "user_12345");
                ("session_id", PyStr "session_abc");
                ("temperature", PyFloat 0.7);
                ("max_tokens", PyInt 100) ]) in
  let models := ["gpt-3.5-turbo"; "gpt-4"; "claude-3-sonnet"] in
  for_each models (fun model =>
    let* _ :=
      create_trace
        (PyStr model)
        (PyStr ("Test prompt for " +:+ model))
        (PyStr ("Test response from " +:+ model))
        (PyInt 10) (PyInt 25) (PyInt 800) PyNone in
    sleep 0.1).

End with_network.

End client.

(** ** The OpenTelemetry SDK as the two OTel scripts use it

    The SDK is outside the repository.  Each call into it is recorded with the
    data the script passes, and an oracle decides whether the call raises.
    SDK objects are opaque: a call is identified by its name and arguments.
    The history holds the calls the scripts make; what the SDK does on its
    own (its worker thread, the shutdown it registers for interpreter exit)
    is not part of it. *)

Module opentelemetry.

Inductive op : Type :=
| ResourceCreate (attributes : list (string * pyval))
| OTLPSpanExporterNew (endpoint : string)
    (headers : option (list (string * pyval)))
| TracerProviderNew
| BatchSpanProcessorNew
| AddSpanProcessor
| SetTracerProvider
| GetTracerProvider
| GetTracer (name : string)
| SpanEnter (name : string)
| SpanExit (name : string) (pending : option exn)
| SetAttribute (span key : string) (value : pyval)
| AddEvent (span name : string) (attributes : option (list (string * pyval)))
| Shutdown
| Sleep (secs : float)
| Print (line : list piece)
| PrintExc (e : exn).

(** The process: its environment variables and its history, oldest first. *)
Record process : Type := { environ : gmap string string; log : list op }.

Definition record (o : op) (p : process) : process :=
  {| environ := environ p; log := log p ++ [o] |}.

(** Which calls fail: the call made as the [n]-th operation of the process
    raises the exception the oracle gives, if any. *)
Definition faults : Type := nat -> op -> option exn.

Definition no_faults : faults := fun _ _ => None.

(** An SDK call or a sleep: recorded, then it returns or raises. *)
Definition call (f : faults) (o : op) : M process unit :=
  fun p =>
    match f (length (log p)) o with
    | Some e => (Raise e, record o p)
    | None => (Ok tt, record o p)
    end.

(** Console output: recorded; writing to the console does not fail. *)
Definition print (line : list piece) : M process unit :=
  fun p => (Ok tt, record (Print line) p).

(** [traceback.print_exc()] inside a handler of [e]. *)
Definition print_exc (e : exn) : M process unit :=
  fun p => (Ok tt, record (PrintExc e) p).

(** [os.getenv(key, default)] *)
Definition getenv (key default : string) : M process string :=
  fun p =>
    match environ p !! key with
    | Some v => (Ok v, p)
    | None => (Ok default, p)
    end.

(** [exit(code)] raises [SystemExit(code)]. *)
Definition exit {A} (code : Z) : M process A :=
  raise (Exn SystemExit [PyInt code]).

(** [with tracer.start_as_current_span(name) as span: body].  The span is
    ended on the way out, also when the body raises; the exception then goes
    on, unless ending the span raises one of its own. *)
Definition with_span (f : faults) (name : string) (body : M process unit)
  : M process unit :=
  let* _ := call f (SpanEnter name) in
  fun p =>
    match body p with
    | (Ok _, p') => call f (SpanExit name None) p'
    | (Raise e, p') =>
        match call f (SpanExit name (Some e)) p' with
        | (Ok _, p'') => (Raise e, p'')
        | (Raise e', p'') => (Raise e', p'')
        end
    end.

(** How the interpreter ends a script whose top level is [main()]. *)
Inductive termination : Type :=
| ExitStatus (code : Z)
| Unhandled (e : exn).

Definition exit_code_of (args : list pyval) : Z :=
  match args with
  | [] | [PyNone] => 0
  | [PyInt n] => n
  | _ => 1
  end.

Definition terminate (r : res unit) : termination :=
  match r with
  | Ok _ => ExitStatus 0
  | Raise e =>
      if decide (exn_cls e = SystemExit) then ExitStatus (exit_code_of (exn_args e))
      else Unhandled e
  end.

Definition run_script (main : M process unit) (env : gmap string string)
  : termination * list op :=
  let '(r, p) := main {| environ := env; log := [] |} in
  (terminate r, log p).

(** The endpoints of the span exporters a history constructs. *)
Fixpoint exporter_endpoints (l : list op) : list string :=
  match l with
  | [] => []
  | OTLPSpanExporterNew endpoint _ :: rest => endpoint :: exporter_endpoints rest
  | _ :: rest => exporter_endpoints rest
  end.


End opentelemetry.

(** ** examples/python_otlp_client.py *)

Module python_otlp_client.
Import opentelemetry.

Section with_faults.
Variable f : faults.

Definition set_attribute (span key : string) (value : pyval) : M process unit :=
  call f (SetAttribute span key value).

Definition shutdown_provider : M process unit :=
  try_except
    (let* _ := call f GetTracerProvider in
     let* _ := call f Shutdown in
     print [Lit "✓ Tracer provider shutdown successfully"])
    Exception
    (fun e =>
       let* _ := print [Lit "⚠ Warning: Error during shutdown: "; FmtExn e] in
       print [Lit "  Some traces may not have been fully exported"]).

(** Lines 51 to 96 of the script: the three examples. *)
Definition send_examples : M process unit :=
  let* _ :=
    with_span f "llm-chat-completion"
      (let* _ := set_attribute "llm-chat-completion" "llm.model" (PyStr "gpt-4") in
       let* _ := set_attribute "llm-chat-completion" "llm.input"
                   (PyStr "What is the meaning of life?") in
       let* _ := set_attribute "llm-chat-completion" "llm.output"
                   (PyStr "The meaning of life is a profound philosophical question that has been pondered throughout human history. Some say it's 42!") in
       let* _ := set_attribute "llm-chat-completion" "llm.usage.prompt_tokens" (PyInt 10) in
       let* _ := set_attribute "llm-chat-completion" "llm.usage.completion_tokens" (PyInt 28) in
       let* _ := set_attribute "llm-chat-completion" "llm.temperature" (PyFloat 0.7) in
       let* _ := set_attribute "llm-chat-completion" "llm.max_tokens" (PyInt 100) in
       call f (Sleep 0.1)) in
  let* _ := print [Lit "✓ Sent trace with LLM attributes"] in
  let* _ :=
    with_span f "gen-ai-completion"
      (let* _ := set_attribute "gen-ai-completion" "gen_ai.request.model"
                   (PyStr "gpt-3.5-turbo") in
       let* _ := set_attribute "gen-ai-completion" "gen_ai.prompt"
                   (PyStr "Explain quantum computing in simple terms") in
       let* _ := set_attribute "gen-ai-completion" "gen_ai.response"
                   (PyStr "Quantum computing uses quantum mechanics principles to perform calculations...") in
       let* _ := set_attribute "gen-ai-completion" "gen_ai.usage.input_tokens" (PyInt 8) in
       let* _ := set_attribute "gen-ai-completion" "gen_ai.usage.output_tokens" (PyInt 15) in
       let* _ := set_attribute "gen-ai-completion" "gen_ai.system" (PyStr "openai") in
       call f (Sleep 0.05)) in
  let* _ := print [Lit "✓ Sent trace with Gen AI semantic conventions"] in
  let* _ :=
    with_span f "conversation"
      (let* _ := set_attribute "conversation" "conversation.id" (PyStr "conv-123") in
       let* _ :=
         with_span f "message-1"
           (let* _ := set_attribute "message-1" "llm.model" (PyStr "claude-2") in
            let* _ := set_attribute "message-1" "llm.input" (PyStr "Hello!") in
            let* _ := set_attribute "message-1" "llm.output"
                        (PyStr "Hi there! How can I help you?") in
            let* _ := set_attribute "message-1" "llm.usage.prompt_tokens" (PyInt 2) in
            let* _ := set_attribute "message-1" "llm.usage.completion_tokens" (PyInt 8) in
            call f (Sleep 0.05)) in
       with_span f "message-2"
         (let* _ := set_attribute "message-2" "llm.model" (PyStr "claude-2") in
          let* _ := set_attribute "message-2" "llm.input"
                      (PyStr "What's the weather like?") in
          let* _ := set_attribute "message-2" "llm.output"
                      (PyStr "I don't have access to real-time weather data.") in
          let* _ := set_attribute "message-2" "llm.usage.prompt_tokens" (PyInt 6) in
          let* _ := set_attribute "message-2" "llm.usage.completion_tokens" (PyInt 12) in
          call f (Sleep 0.05))) in
  print [Lit "✓ Sent nested conversation traces"].

Definition main : M process unit :=
  let* endpoint := getenv "OTLP_ENDPOINT" "http://localhost:8080/v1/traces" in
  let* _ := call f (ResourceCreate [ ("service.name", PyStr "python-llm-app");
                                     ("service.version", PyStr "1.0.0") ]) in
  let* _ := call f TracerProviderNew in
  let* _ := call f SetTracerProvider in
  let* _ := call f (GetTracer "__main__") in
  let* _ := call f (OTLPSpanExporterNew endpoint None) in
  let* _ := call f BatchSpanProcessorNew in
  let* _ := call f GetTracerProvider in
  let* _ := call f AddSpanProcessor in
  let* _ := print [Lit "Sending traces to Simple Traces collector at ";
                   Fmt (PyStr endpoint); Lit "..."] in
  let* _ := send_examples in
  let* _ := print [Lit (newline +:+ "Shutting down tracer provider...")] in
  let* _ := shutdown_provider in
  let* _ := print [Lit (newline +:+ "✅ All traces sent successfully!")] in
  print [Lit "View them at: http://localhost:8080"].

End with_faults.

End python_otlp_client.

(** ** examples/otel-client.py *)

Module otel_client.
Import opentelemetry.

Definition SERVICE_NAME : string := "simple-traces-python-example".
Definition OTLP_ENDPOINT : string := "http://localhost:8080/v1/traces".

Section with_faults.
Variable f : faults.

Definition set_attribute (span key : string) (value : pyval) : M process unit :=
  call f (SetAttribute span key value).

Definition add_event (span name : string)
    (attributes : option (list (string * pyval))) : M process unit :=
  call f (AddEvent span name attributes).

Definition init_tracer : M process unit :=
  let* _ := call f (ResourceCreate [ ("service.name", PyStr SERVICE_NAME);
                                     ("service.version", PyStr "1.0.0") ]) in
  let* _ := call f (OTLPSpanExporterNew OTLP_ENDPOINT (Some [])) in
  let* _ := call f TracerProviderNew in
  let* _ := call f BatchSpanProcessorNew in
  let* _ := call f AddSpanProcessor in
  let* _ := call f SetTracerProvider in
  let* _ := print [Lit "✓ OpenTelemetry initialized with OTLP exporter"] in
  let* _ := print [Lit "  Sending traces to: "; Fmt (PyStr OTLP_ENDPOINT)] in
  call f (GetTracer SERVICE_NAME).

Definition simple_trace_example : M process unit :=
  let* _ := print [Lit (newline +:+ "--- Simple Trace Example ---")] in
  let* _ :=
    with_span f "llm.call"
      (let* _ := set_attribute "llm.call" "llm.model" (PyStr "gpt-4") in
       let* _ := set_attribute "llm.call" "llm.input"
                   (PyStr "What is the capital of France?") in
       let* _ := set_attribute "llm.call" "llm.output"
                   (PyStr "The capital of France is Paris.") in
       let* _ := set_attribute "llm.call" "llm.usage.prompt_tokens" (PyInt 10) in
       let* _ := set_attribute "llm.call" "llm.usage.completion_tokens" (PyInt 15) in
       call f (Sleep 0.1)) in
  print [Lit "✓ Simple trace sent"].

Definition nested_trace_example : M process unit :=
  let* _ := print [Lit (newline +:+ "--- Nested Trace Example ---")] in
  let* _ :=
    with_span f "llm.conversation"
      (let* _ :=
         with_span f "llm.call.1"
           (let* _ := set_attribute "llm.call.1" "llm.model" (PyStr "gpt-3.5-turbo") in
            let* _ := set_attribute "llm.call.1" "llm.input" (PyStr "Tell me a joke") in
            let* _ := set_attribute "llm.call.1" "llm.output"
                        (PyStr "Why did the chicken cross the road? To get to the other side!") in
            let* _ := set_attribute "llm.call.1" "llm.usage.prompt_tokens" (PyInt 5) in
            let* _ := set_attribute "llm.call.1" "llm.usage.completion_tokens" (PyInt 20) in
            call f (Sleep 0.08)) in
       with_span f "llm.call.2"
         (let* _ := set_attribute "llm.call.2" "llm.model" (PyStr "gpt-4") in
          let* _ := set_attribute "llm.call.2" "llm.input" (PyStr "Explain that joke") in
          let* _ := set_attribute "llm.call.2" "llm.output"
                      (PyStr "The joke plays on the classic setup-punchline format...") in
          let* _ := set_attribute "llm.call.2" "llm.usage.prompt_tokens" (PyInt 8) in
          let* _ := set_attribute "llm.call.2" "llm.usage.completion_tokens" (PyInt 30) in
          call f (Sleep 0.12))) in
  print [Lit "✓ Nested trace sent"].

Definition gen_ai_trace_example : M process unit :=
  let* _ := print [Lit (newline +:+ "--- Gen AI Semantic Conventions Example ---")] in
  let* _ :=
    with_span f "gen_ai.completion"
      (let* _ := set_attribute "gen_ai.completion" "gen_ai.system" (PyStr "openai") in
       let* _ := set_attribute "gen_ai.completion" "gen_ai.request.model"
                   (PyStr "gpt-4-turbo") in
       let* _ := set_attribute "gen_ai.completion" "gen_ai.prompt"
                   (PyStr ("Translate " +:+ dquote +:+ "hello" +:+ dquote +:+ " to French")) in
       let* _ := set_attribute "gen_ai.completion" "gen_ai.response" (PyStr "Bonjour") in
       let* _ := set_attribute "gen_ai.completion" "gen_ai.usage.input_tokens" (PyInt 6) in
       let* _ := set_attribute "gen_ai.completion" "gen_ai.usage.output_tokens" (PyInt 2) in
       let* _ := set_attribute "gen_ai.completion" "gen_ai.request.temperature"
                   (PyFloat 0.7) in
       let* _ := set_attribute "gen_ai.completion" "gen_ai.request.max_tokens"
                   (PyInt 100) in
       call f (Sleep 0.09)) in
  print [Lit "✓ Gen AI trace sent"].

Definition trace_with_events_example : M process unit :=
  let* _ := print [Lit (newline +:+ "--- Trace with Events Example ---")] in
  let* _ :=
    with_span f "llm.streaming_call"
      (let* _ := set_attribute "llm.streaming_call" "llm.model" (PyStr "claude-3-opus") in
       let* _ := set_attribute "llm.streaming_call" "llm.input"
                   (PyStr "Write a short poem") in
       let* _ := add_event "llm.streaming_call" "stream.started" None in
       let* _ := call f (Sleep 0.05) in
       let* _ := add_event "llm.streaming_call" "stream.chunk_received"
                   (Some [("chunk", PyInt 1); ("content", PyStr "Roses are red,")]) in
       let* _ := call f (Sleep 0.05) in
       let* _ := add_event "llm.streaming_call" "stream.chunk_received"
                   (Some [("chunk", PyInt 2); ("content", PyStr "Violets are blue,")]) in
       let* _ := call f (Sleep 0.05) in
       let* _ := add_event "llm.streaming_call" "stream.chunk_received"
                   (Some [("chunk", PyInt 3);
                          ("content", PyStr "OpenTelemetry is great,")]) in
       let* _ := call f (Sleep 0.05) in
       let* _ := add_event "llm.streaming_call" "stream.chunk_received"
                   (Some [("chunk", PyInt 4); ("content", PyStr "And so are you!")]) in
       let* _ := add_event "llm.streaming_call" "stream.completed"
                   (Some [("total_chunks", PyInt 4)]) in
       let* _ := set_attribute "llm.streaming_call" "llm.output"
                   (PyStr "Roses are red, Violets are blue, OpenTelemetry is great, And so are you!") in
       let* _ := set_attribute "llm.streaming_call" "llm.usage.prompt_tokens" (PyInt 7) in
       set_attribute "llm.streaming_call" "llm.usage.completion_tokens" (PyInt 18)) in
  print [Lit "✓ Trace with events sent"].

(** The body of the [try] of [main], lines 161 to 174. *)
Definition main_try : M process unit :=
  let* _ := init_tracer in
  let* _ := simple_trace_example in
  let* _ := nested_trace_example in
  let* _ := gen_ai_trace_example in
  let* _ := trace_with_events_example in
  let* _ := call f (Sleep 2) in
  let* _ := print [Lit (newline +:+ "✓ All examples completed!")] in
  print [Lit "Check the Simple Traces UI at http://localhost:8080 to see the traces."].

(** The [except Exception as e] branch of [main], lines 176 to 180. *)
Definition main_except (e : exn) : M process unit :=
  let* _ := print [Lit "✗ Error: "; FmtExn e] in
  let* _ := print_exc e in
  exit 1.

Definition main : M process unit :=
  let* _ := print [Lit "OpenTelemetry Simple Traces Example Client (Python)"] in
  let* _ := print [Lit (str_mul "=" 50)] in
  try_except main_try Exception main_except.

End with_faults.

End otel_client.

(** ** Vocabulary of the properties *)

Module client_spec.
Import client.

(** What [requests.post] gives for [body] in history [w]. *)
Definition answer (net : network) (w : world) (body : pyval) : res Response :=
  fst (requests_post net API_URL body w).

(** What one call puts on the network for [body]: one POST, or nothing when
    the encoder refuses the body. *)
Definition sent (body : pyval) : list event :=
  if json_serializable body then [Post API_URL body] else [].

(** The exception a submission ends with before any body is read: the one
    [requests.post] raises, or the one [raise_for_status] raises for the
    response it returned. *)
Definition submission_error (r : res Response) : option exn :=
  match r with
  | Raise e => Some e
  | Ok resp => http_error resp
  end.

(** A submission that [create_trace] finishes with a return: it fails with a
    [RequestException], or it succeeds with a body that has an [id]. *)
Definition handled (r : res Response) : bool :=
  match submission_error r, r with
  | Some e, _ => isinstance e RequestException
  | None, Raise e => isinstance e RequestException
  | None, Ok resp =>
      match json_result resp with
      | Raise e => isinstance e RequestException
      | Ok v => match getitem_str v "id" with
                | Ok _ => true
                | Raise _ => false
                end
      end
  end.

(** The six keys every payload has, in the order of the dict literal. *)
Definition required_keys : list string :=
  ["model"; "input"; "output"; "prompt_tokens"; "output_tokens"; "duration"].

(** The payloads of the five calls of [main], in program order. *)
Definition main_payloads : list pyval :=
  [ PyDict (build_payload (PyStr "gpt-4") (PyStr "What is machine learning?")
      (PyStr "Machine learning is a subset of artificial intelligence...")
      (PyInt 15) (PyInt 45) (PyInt 1200) PyNone);
    PyDict (build_payload (PyStr "claude-3-opus")
      (PyStr "Explain quantum computing in simple terms")
      (PyStr "Quantum computing uses quantum mechanics principles...")
      (PyInt 20) (PyInt 60) (PyInt 1500)
      (PyDict [ ("user_id", PyStr "user_12345");
                ("session_id", PyStr "session_abc");
                ("temperature", PyFloat 0.7);
                ("max_tokens", PyInt 100) ]));
    PyDict (build_payload (PyStr "gpt-3.5-turbo")
      (PyStr "Test prompt for gpt-3.5-turbo")
      (PyStr "Test response from gpt-3.5-turbo")
      (PyInt 10) (PyInt 25) (PyInt 800) PyNone);
    PyDict (build_payload (PyStr "gpt-4") (PyStr "Test prompt for gpt-4")
      (PyStr "Test response from gpt-4")
      (PyInt 10) (PyInt 25) (PyInt 800) PyNone);
    PyDict (build_payload (PyStr "claude-3-sonnet")
      (PyStr "Test prompt for claude-3-sonnet")
      (PyStr "Test response from claude-3-sonnet")
      (PyInt 10) (PyInt 25) (PyInt 800) PyNone) ].

(** Endpoints used in the examples below. *)
Definition respond (status : Z) (body : pyval) : network :=
  fun _ _ _ => Ok {| status_code := status; json_result := Ok body |}.

Definition unreachable : network :=
  fun _ _ _ => Raise (Exn ConnectionError [PyStr "connection refused"]).

(** Refuses the first and the third request, accepts the others. *)
Definition flaky : network :=
  fun n _ _ =>
    match n with
    | 0%nat | 2%nat => Raise (Exn ConnectionError [PyStr "connection refused"])
    | _ => Ok {| status_code := 201;
                 json_result := Ok (PyDict [("id", PyInt (Z.of_nat n))]) |}
    end.

End client_spec.

Module otel_spec.
Import opentelemetry.

(** An SDK in which exactly the calls selected by [which] raise [e]. *)
Definition fail_on (which : op -> bool) (e : exn) : faults :=
  fun _ o => if which o then Some e else None.

Definition is_Shutdown (o : op) : bool :=
  match o with
  | Shutdown => true
  | _ => false
  end.

Definition is_ResourceCreate (o : op) : bool :=
  match o with
  | ResourceCreate _ => true
  | _ => false
  end.

Definition is_SetAttribute (o : op) : bool :=
  match o with
  | SetAttribute _ _ _ => true
  | _ => false
  end.

(** The endpoint [python_otlp_client.py] asks for in environment [env]. *)
Definition configured_endpoint (env : gmap string string) : string :=
  match env !! "OTLP_ENDPOINT" with
  | Some v => v
  | None => "http://localhost:8080/v1/traces"
  end.

(** A computation keeps the environment and only appends operations that
    satisfy [P]. *)
Definition emits (env : gmap string string) (P : op -> Prop) {A}
    (m : M process A) : Prop :=
  forall p r p',
    environ p = env -> m p = (r, p') ->
    environ p' = env /\ exists l, log p' = log p ++ l /\ Forall P l.

(** Every exporter is built for endpoint [ep]. *)
Definition exports_to (ep : string) (o : op) : Prop :=
  match o with
  | OTLPSpanExporterNew endpoint _ => endpoint = ep
  | _ => True
  end.


(** The process of [otel-client.py] when [main] enters its [try]: the two
    banner lines are out. *)
Definition at_try (env : gmap string string) : process :=
  {| environ := env;
     log := [ Print [Lit "OpenTelemetry Simple Traces Example Client (Python)"];
              Print [Lit (str_mul "=" 50)] ] |}.

(** An environment that sets the variable. *)
Definition custom_env : gmap string string :=
  {[ "OTLP_ENDPOINT" := "http://collector.internal:4318/v1/traces" ]}.

Definition not_Shutdown (o : op) : Prop := is_Shutdown o = false.

(** Span discipline of a history, read from the stack [open] of the spans
    that are open (innermost first): a span exit closes the innermost span,
    an attribute or an event goes to the innermost span.  Gives the stack at
    the end, or nothing when the discipline is broken. *)
Fixpoint span_scan (open : list string) (l : list op) : option (list string) :=
  match l with
  | [] => Some open
  | SpanEnter name :: rest => span_scan (name :: open) rest
  | SpanExit name _ :: rest =>
      match open with
      | top :: below =>
          if String.eqb top name then span_scan below rest else None
      | [] => None
      end
  | SetAttribute span _ _ :: rest | AddEvent span _ _ :: rest =>
      match open with
      | top :: _ => if String.eqb top span then span_scan open rest else None
      | [] => None
      end
  | _ :: rest => span_scan open rest
  end.

(** Operations that neither open nor close a span nor write to one. *)
Definition span_neutral (o : op) : bool :=
  match o with
  | SpanEnter _ | SpanExit _ _ | SetAttribute _ _ _ | AddEvent _ _ _ => false
  | _ => true
  end.

(** A computation run inside the open spans [cur] appends a history that
    keeps the discipline and leaves the same spans open. *)
Definition in_span (cur : list string) {A} (m : M process A) : Prop :=
  forall p r p',
    m p = (r, p') ->
    exists l, log p' = log p ++ l /\
              forall below, span_scan (cur ++ below) l = Some (cur ++ below).

(** What of the tracing pipeline is in place: the exporter is built, the
    span processor is added to the provider, the provider is registered. *)
Record pipeline : Type :=
  { exporter_built : bool; processor_added : bool; provider_set : bool }.

Definition pipeline_ready (s : pipeline) : bool :=
  exporter_built s && processor_added s && provider_set s.

Definition pipeline_step (s : pipeline) (o : op) : pipeline :=
  match o with
  | OTLPSpanExporterNew _ _ =>
      {| exporter_built := true; processor_added := processor_added s;
         provider_set := provider_set s |}
  | AddSpanProcessor =>
      {| exporter_built := exporter_built s; processor_added := true;
         provider_set := provider_set s |}
  | SetTracerProvider =>
      {| exporter_built := exporter_built s;
         processor_added := processor_added s; provider_set := true |}
  | _ => s
  end.

Definition is_SpanEnter (o : op) : bool :=
  match o with
  | SpanEnter _ => true
  | _ => false
  end.

(** No span is started before the pipeline is ready.  The history [l] starts
    at position [n] of the process; a setup call counts only when the oracle
    let it succeed.  Gives the pipeline at the end of the history. *)
Fixpoint pipeline_scan (f : faults) (n : nat) (s : pipeline) (l : list op)
  : option pipeline :=
  match l with
  | [] => Some s
  | o :: rest =>
      if is_SpanEnter o && negb (pipeline_ready s) then None
      else pipeline_scan f (S n)
             (match f n o with
              | None => pipeline_step s o
              | Some _ => s
              end)
             rest
  end.

Definition is_exporter (o : op) : bool :=
  match o with
  | OTLPSpanExporterNew _ _ => true
  | _ => false
  end.

Definition is_AddSpanProcessor (o : op) : bool :=
  match o with
  | AddSpanProcessor => true
  | _ => false
  end.

Definition is_SetTracerProvider (o : op) : bool :=
  match o with
  | SetTracerProvider => true
  | _ => false
  end.

(** Before position [i] of history [l], a call of kind [kind] was made and
    succeeded. *)
Definition succeeded_before (f : faults) (l : list op) (i : nat)
    (kind : op -> bool) : Prop :=
  exists j o,
    (j < i)%nat /\ l !! j = Some o /\ kind o = true /\ f j o = None.

(** In history [l], every span start comes after a successful call of each
    of the three setup kinds. *)
Definition spans_follow_setup (f : faults) (l : list op) : Prop :=
  forall i name,
    l !! i = Some (SpanEnter name) ->
    succeeded_before f l i is_exporter /\
    succeeded_before f l i is_AddSpanProcessor /\
    succeeded_before f l i is_SetTracerProvider.

(** In history [l], when every call of kind [kind] failed, no span was
    started. *)
Definition no_span_without (f : faults) (l : list op) (kind : op -> bool)
  : Prop :=
  (forall j o, l !! j = Some o -> kind o = true -> f j o <> None) ->
  existsb is_SpanEnter l = false.

Definition no_pipeline : pipeline :=
  {| exporter_built := false; processor_added := false;
     provider_set := false |}.

(** From pipeline [s], a computation in environment [env] starts no span
    before the pipeline is ready, however it ends. *)
Definition pipeline_safe (env : gmap string string) (f : faults)
    (s : pipeline) {A} (m : M process A) : Prop :=
  forall p r p',
    environ p = env -> m p = (r, p') ->
    environ p' = env /\
    exists l, log p' = log p ++ l /\
              pipeline_scan f (length (log p)) s l <> None.

Definition not_SpanEnter (o : op) : Prop := is_SpanEnter o = false.

Definition any_op (o : op) : Prop := True.






(** A computation that raises no instance of [Exception]. *)
Definition raises_no_Exception {A} (m : M process A) : Prop :=
  forall p e p', m p = (Raise e, p') -> isinstance e Exception = false.

(** A computation that has not made the script's shutdown call when it
    raises an instance of [Exception]. *)
Definition fails_before_shutdown (env : gmap string string) {A}
    (m : M process A) : Prop :=
  forall p e p',
    environ p = env -> m p = (Raise e, p') ->
    isinstance e Exception = true ->
    exists l, log p' = log p ++ l /\ Forall not_Shutdown l.

End otel_spec.

(** * Properties of examples/client.py *)

Section client_properties.
Import client client_spec.

Lemma posts_of_app (w1 w2 : world) :
  posts_of (w1 ++ w2) = posts_of w1 ++ posts_of w2.
Proof.
  induction w1 as [|ev w1 IH]; simpl; [reflexivity|].
  destruct ev; simpl; rewrite IH; reflexivity.
Qed.

(** Every exception of [raise_for_status] is a [RequestException]. *)
Lemma http_error_is_RequestException (r : Response) (e : exn) :
  http_error r = Some e -> isinstance e RequestException = true.
Proof.
  unfold http_error. intros H.
  destruct (_ && _); [|destruct (_ && _)]; inversion H; reflexivity.
Qed.

Lemma http_error_2xx (r : Response) :
  200 <= status_code r < 300 -> http_error r = None.
Proof.
  intros [Hlo Hhi]. unfold http_error.
  destruct (400 <=? status_code r) eqn:E1; [apply Z.leb_le in E1; lia|].
  destruct (500 <=? status_code r) eqn:E2; [apply Z.leb_le in E2; lia|].
  reflexivity.
Qed.

Lemma getitem_str_error_class (v : pyval) (k : string) (e : exn) :
  getitem_str v k = Raise e ->
  isinstance e RequestException = false /\
  (exn_cls e = KeyError \/ exn_cls e = TypeError).
Proof.
  unfold getitem_str. intros H.
  destruct v; try (inversion H; subst; split; [reflexivity|right; reflexivity]).
  destruct (dict_get kvs k); inversion H; subst.
  split; [reflexivity|left; reflexivity].
Qed.

(** [create_trace], case by case on what the endpoint does. *)
Lemma create_trace_cases (net : network)
    (model input_text output_text prompt_tokens output_tokens duration_ms
       metadata : pyval) (w : world) :
  let payload :=
    PyDict (build_payload model input_text output_text prompt_tokens
              output_tokens duration_ms metadata) in
  let w1 := w ++ sent payload in
  let failed e :=
    (Ok PyNone, w1 ++ [Print [Lit "✗ Error creating trace: "; FmtExn e]]) in
  let outcome (r : res pyval) :=
    match r with
    | Raise e => if isinstance e RequestException then failed e
                 else (Raise e, w1)
    | Ok id => (Ok id, w1)
    end in
  create_trace net model input_text output_text prompt_tokens output_tokens
    duration_ms metadata w =
  match answer net w payload with
  | Raise e => outcome (Raise e)
  | Ok resp =>
      match http_error resp with
      | Some e => failed e
      | None =>
          match json_result resp with
          | Raise e => outcome (Raise e)
          | Ok result =>
              match getitem_str result "id" with
              | Raise e => outcome (Raise e)
              | Ok id =>
                  (Ok result,
                   w1 ++ [Print [Lit "✓ Trace created: "; Fmt id]])
              end
          end
      end
  end.
Proof.
  cbv zeta.
  unfold create_trace, try_except, bind, answer, sent, requests_post,
    raise_for_status, response_json, getitem, print, ret, raise.
  destruct (json_serializable _); cbn [fst];
    [|rewrite app_nil_r; reflexivity].
  destruct (net _ _ _) as [resp|e]; [|reflexivity].
  destruct (http_error resp) as [e|] eqn:Hh.
  - rewrite (http_error_is_RequestException _ _ Hh). reflexivity.
  - destruct (json_result resp) as [result|e]; [|reflexivity].
    destruct (getitem_str result "id") as [id|e]; reflexivity.
Qed.

(** A response means that the request went out. *)
Lemma answer_Ok (net : network) (w : world) (body : pyval) (resp : Response) :
  answer net w body = Ok resp ->
  json_serializable body = true /\
  sent body = [Post API_URL body] /\
  net (length (posts_of w)) API_URL body = Ok resp.
Proof.
  unfold answer, sent, requests_post.
  destruct (json_serializable body); cbn [fst]; [auto|discriminate].
Qed.

(** An encodable body is sent and the endpoint answers. *)
Lemma answer_serializable (net : network) (w : world) (body : pyval) :
  json_serializable body = true ->
  answer net w body = net (length (posts_of w)) API_URL body /\
  sent body = [Post API_URL body].
Proof.
  intros H. unfold answer, sent, requests_post. rewrite H. auto.
Qed.

(** After what it sends, [create_trace] only prints. *)
Lemma create_trace_log (net : network)
    (model input_text output_text prompt_tokens output_tokens duration_ms
       metadata : pyval) (w : world) :
  exists r tail,
    create_trace net model input_text output_text prompt_tokens output_tokens
      duration_ms metadata w =
    (r, w ++ sent (PyDict (build_payload model input_text output_text
                             prompt_tokens output_tokens duration_ms metadata))
          ++ tail) /\
    posts_of tail = [].
Proof.
  rewrite create_trace_cases. cbv zeta.
  repeat match goal with
         | |- context [match ?x with _ => _ end] => destruct x
         end;
    rewrite <- ?app_assoc;
    first [ do 2 eexists; split; [reflexivity|reflexivity]
          | eexists; exists []; rewrite app_nil_r; split; reflexivity ].
Qed.

Section create_trace_properties.
Variable net : network.
Variables model input_text output_text prompt_tokens output_tokens
  duration_ms metadata : pyval.
Variable w : world.

Local Abbreviation payload :=
  (build_payload model input_text output_text prompt_tokens output_tokens
     duration_ms metadata).
Local Abbreviation trace :=
  (create_trace net model input_text output_text prompt_tokens output_tokens
     duration_ms metadata).

(** C1: when the POST raises a RequestException, from [requests.post] itself
    (a transport failure, or a body the encoder refuses) or from
    [raise_for_status] on a 4xx/5xx response, [create_trace] catches it,
    prints the error line and returns None; nothing is raised to the
    caller. *)
Theorem C1_request_exception_returns_none (e : exn) :
  submission_error (answer net w (PyDict payload)) = Some e ->
  isinstance e RequestException = true ->
  trace w =
  (Ok PyNone,
   (w ++ sent (PyDict payload))
     ++ [Print [Lit "✗ Error creating trace: "; FmtExn e]]).
Proof.
  intros Hsub Hinst. rewrite create_trace_cases. cbv zeta.
  destruct (answer _ _ _) as [resp|e']; simpl in Hsub.
  - rewrite Hsub. reflexivity.
  - inversion Hsub; subst. rewrite Hinst. reflexivity.
Qed.

(** C2, amended: for a 2xx response whose parsed body has no [id] (an object
    without the key, or a value that is not an object), the subscript raises
    KeyError, respectively TypeError; that is not a RequestException, so
    [create_trace] prints nothing and the exception reaches the caller. *)
Theorem C2_body_without_id_raises (resp : Response) (result : pyval) (e : exn) :
  answer net w (PyDict payload) = Ok resp ->
  200 <= status_code resp < 300 ->
  json_result resp = Ok result ->
  getitem_str result "id" = Raise e ->
  trace w = (Raise e, w ++ [Post API_URL (PyDict payload)]) /\
  isinstance e RequestException = false /\
  (forall kvs, result = PyDict kvs -> e = Exn KeyError [PyStr "id"]) /\
  ((forall kvs, result <> PyDict kvs) -> e = Exn TypeError []).
Proof.
  intros Hnet Hst Hjson Hget.
  destruct (getitem_str_error_class _ _ _ Hget) as [Hinst _].
  split; [|split; [exact Hinst|split]].
  - destruct (answer_Ok _ _ _ _ Hnet) as (_ & Hsent & _).
    rewrite create_trace_cases. cbv zeta.
    rewrite Hnet, (http_error_2xx _ Hst), Hjson, Hget, Hinst, Hsent.
    reflexivity.
  - intros kvs ->. simpl in Hget.
    destruct (dict_get kvs "id"); inversion Hget; reflexivity.
  - intros Hnd. destruct result; simpl in Hget;
      try (inversion Hget; reflexivity).
    exfalso. eapply Hnd. reflexivity.
Qed.

(** C3, amended: for a 2xx response whose parsed body has an [id], the [id]
    is printed and the value returned is the whole parsed body, not the [id]
    alone. *)
Theorem C3_success_returns_body (resp : Response) (result id : pyval) :
  answer net w (PyDict payload) = Ok resp ->
  200 <= status_code resp < 300 ->
  json_result resp = Ok result ->
  getitem_str result "id" = Ok id ->
  trace w =
  (Ok result,
   (w ++ [Post API_URL (PyDict payload)])
     ++ [Print [Lit "✓ Trace created: "; Fmt id]]).
Proof.
  intros Hnet Hst Hjson Hget.
  destruct (answer_Ok _ _ _ _ Hnet) as (_ & Hsent & _).
  rewrite create_trace_cases. cbv zeta.
  rewrite Hnet, (http_error_2xx _ Hst), Hjson, Hget, Hsent. reflexivity.
Qed.

(** C4, amended: the body sent has the six keys model, input, output,
    prompt_tokens, output_tokens and duration bound to the corresponding
    arguments ([duration_ms] under duration), followed by metadata bound to
    the argument exactly when the argument is truthy; a falsy one adds no
    key.  That body is the only thing the call sends (and it is sent unless
    the encoder refuses it). *)
Theorem C4_payload_keys_and_values :
  dict_keys payload =
    required_keys ++ (if truthy metadata then ["metadata"] else []) /\
  dict_get payload "model" = Some model /\
  dict_get payload "input" = Some input_text /\
  dict_get payload "output" = Some output_text /\
  dict_get payload "prompt_tokens" = Some prompt_tokens /\
  dict_get payload "output_tokens" = Some output_tokens /\
  dict_get payload "duration" = Some duration_ms /\
  dict_get payload "metadata" =
    (if truthy metadata then Some metadata else None) /\
  posts_of (snd (trace w)) =
    posts_of w ++
    (if json_serializable (PyDict payload) then [(API_URL, PyDict payload)]
     else []).
Proof.
  repeat split;
    try (unfold build_payload; destruct (truthy metadata); reflexivity).
  destruct (create_trace_log net model input_text output_text prompt_tokens
              output_tokens duration_ms metadata w) as (r & tail & Heq & Hp).
  rewrite Heq. cbn [snd]. rewrite !posts_of_app, Hp, app_nil_r.
  unfold sent. destruct (json_serializable _); reflexivity.
Qed.



(** C9: a falsy metadata argument (such as an empty dict) leaves the payload
    without a metadata key, exactly as None does, and the whole call behaves
    as with None. *)
Theorem C9_falsy_metadata_omitted :
  truthy metadata = false ->
  payload =
    build_payload model input_text output_text prompt_tokens output_tokens
      duration_ms PyNone /\
  dict_get payload "metadata" = None /\
  dict_keys payload = required_keys /\
  trace w =
    create_trace net model input_text output_text prompt_tokens output_tokens
      duration_ms PyNone w.
Proof.
  intros Hf.
  assert (Hp : payload =
    build_payload model input_text output_text prompt_tokens output_tokens
      duration_ms PyNone).
  { unfold build_payload. rewrite Hf. reflexivity. }
  split; [exact Hp|]. split; [|split].
  - rewrite Hp. reflexivity.
  - rewrite Hp. reflexivity.
  - unfold create_trace. rewrite Hp. reflexivity.
Qed.

End create_trace_properties.

(** A handled submission makes [create_trace] return after the POST and one
    printed line. *)
Lemma create_trace_handled (net : network)
    (model input_text output_text prompt_tokens output_tokens duration_ms
       metadata : pyval) (w : world) :
  json_serializable
    (PyDict (build_payload model input_text output_text prompt_tokens
               output_tokens duration_ms metadata)) = true ->
  handled (net (length (posts_of w)) API_URL
             (PyDict (build_payload model input_text output_text
                        prompt_tokens output_tokens duration_ms metadata)))
    = true ->
  exists v line,
    create_trace net model input_text output_text prompt_tokens output_tokens
      duration_ms metadata w =
    (Ok v,
     (w ++ [Post API_URL
              (PyDict (build_payload model input_text output_text
                         prompt_tokens output_tokens duration_ms metadata))])
       ++ [Print line]).
Proof.
  intros Hs H. rewrite create_trace_cases. cbv zeta.
  destruct (answer_serializable net w _ Hs) as [-> ->].
  unfold handled, submission_error in H.
  destruct (net _ _ _) as [resp|e].
  - destruct (http_error resp) as [e|]; [eauto|].
    destruct (json_result resp) as [result|e].
    + destruct (getitem_str result "id"); [eauto|discriminate].
    + rewrite H. eauto.
  - rewrite H. eauto.
Qed.

Ltac run_create_trace H :=
  match goal with
  | |- context [create_trace ?n ?a ?b ?c ?d ?e ?f ?g ?w] =>
      let v := fresh "v" in
      let line := fresh "line" in
      let E := fresh "E" in
      destruct (create_trace_handled n a b c d e f g w eq_refl (H _ _ _))
        as (v & line & E);
      rewrite E; clear E; cbv beta iota
  end.

(** C10: when every submission either succeeds or fails with a
    RequestException, [main] runs to its end and issues its five POSTs in
    program order: a failed submission is turned into a None return and the
    next call is made. *)
Theorem C10_main_attempts_all_five (net : network) :
  (forall n url body, handled (net n url body) = true) ->
  exists w,
    main net [] = (Ok tt, w) /\
    posts_of w = map (fun body => (API_URL, body)) main_payloads.
Proof.
  intros H. unfold main, for_each, bind, sleep, ret. cbv beta.
  do 5 run_create_trace H.
  eexists. split; reflexivity.
Qed.

End client_properties.

(** ** The client on concrete endpoints *)

Section client_examples.
Import client client_spec.

Local Abbreviation sample net metadata :=
  (create_trace net (PyStr "gpt-4") (PyStr "hi") (PyStr "hello")
     (PyInt 1) (PyInt 2) (PyInt 30) metadata).

Local Abbreviation sample_body :=
  (PyDict [ ("model", PyStr "gpt-4"); ("input", PyStr "hi");
            ("output", PyStr "hello"); ("prompt_tokens", PyInt 1);
            ("output_tokens", PyInt 2); ("duration", PyInt 30) ]).

Lemma C1_witness :
  let e := Exn ConnectionError [PyStr "connection refused"] in
  submission_error (unreachable 0%nat API_URL sample_body) = Some e /\
  isinstance e RequestException = true /\
  sample unreachable PyNone [] =
  (Ok PyNone,
   [Post API_URL sample_body;
    Print [Lit "✗ Error creating trace: "; FmtExn e]]).
Proof.
  cbv zeta. split; [reflexivity|]. split; [reflexivity|].
  apply (C1_request_exception_returns_none unreachable (PyStr "gpt-4")
           (PyStr "hi") (PyStr "hello") (PyInt 1) (PyInt 2) (PyInt 30)
           PyNone []);
    reflexivity.
Defined.

(** A 503 answer takes the same path through [raise_for_status]. *)
Example server_error_returns_none :
  sample (respond 503 PyNone) PyNone [] =
  (Ok PyNone,
   [Post API_URL sample_body;
    Print [Lit "✗ Error creating trace: ";
           FmtExn (Exn HTTPError [PyInt 503; PyStr "Server Error"])]]).
Proof. reflexivity. Qed.

(** The claim C2 fails: a 200 answer whose body is an object without [id]
    makes [create_trace] raise KeyError to its caller; no error line is
    printed and None is not returned. *)
Lemma C2_counterexample :
  let r := sample (respond 200 (PyDict [("status", PyStr "created")])) PyNone [] in
  r = (Raise (Exn KeyError [PyStr "id"]), [Post API_URL sample_body]) /\
  fst r <> Ok PyNone /\
  isinstance (Exn KeyError [PyStr "id"]) RequestException = false.
Proof.
  cbv zeta. split; [reflexivity|]. split; [|reflexivity].
  intros H. discriminate H.
Qed.

Lemma C2_witness :
  let resp := {| status_code := 200;
                 json_result := Ok (PyDict [("status", PyStr "created")]) |} in
  let net := respond 200 (PyDict [("status", PyStr "created")]) in
  let e := Exn KeyError [PyStr "id"] in
  net 0%nat API_URL sample_body = Ok resp /\
  200 <= status_code resp < 300 /\
  getitem_str (PyDict [("status", PyStr "created")]) "id" = Raise e /\
  sample net PyNone [] = (Raise e, [Post API_URL sample_body]).
Proof.
  cbv zeta. split; [reflexivity|]. split; [simpl; lia|]. split; [reflexivity|].
  apply (C2_body_without_id_raises
           (respond 200 (PyDict [("status", PyStr "created")]))
           (PyStr "gpt-4") (PyStr "hi") (PyStr "hello") (PyInt 1) (PyInt 2)
           (PyInt 30) PyNone []
           {| status_code := 200;
              json_result := Ok (PyDict [("status", PyStr "created")]) |}
           (PyDict [("status", PyStr "created")])
           (Exn KeyError [PyStr "id"]));
    [reflexivity | simpl; lia | reflexivity | reflexivity].
Defined.

(** A JSON array as body: the subscript raises TypeError, also uncaught. *)
Example array_body_raises_type_error :
  sample (respond 200 (PyList [PyInt 1])) PyNone [] =
  (Raise (Exn TypeError []), [Post API_URL sample_body]).
Proof. reflexivity. Qed.

(** The claim C3 fails: on success the caller gets the whole response body,
    here the object [{"id": "tr_42", "status": "created"}], not the
    identifier [tr_42]; the identifier is what is printed. *)
Lemma C3_counterexample :
  let body := PyDict [("id", PyStr "tr_42"); ("status", PyStr "created")] in
  sample (respond 201 body) PyNone [] =
  (Ok body,
   [Post API_URL sample_body;
    Print [Lit "✓ Trace created: "; Fmt (PyStr "tr_42")]]) /\
  fst (sample (respond 201 body) PyNone []) <> Ok (PyStr "tr_42").
Proof.
  cbv zeta. split; [reflexivity|]. intros H. discriminate H.
Qed.

Lemma C3_witness :
  let body := PyDict [("id", PyStr "tr_42"); ("status", PyStr "created")] in
  let resp := {| status_code := 201; json_result := Ok body |} in
  respond 201 body 0%nat API_URL sample_body = Ok resp /\
  200 <= status_code resp < 300 /\
  getitem_str body "id" = Ok (PyStr "tr_42") /\
  sample (respond 201 body) PyNone [] =
  (Ok body,
   [Post API_URL sample_body;
    Print [Lit "✓ Trace created: "; Fmt (PyStr "tr_42")]]).
Proof.
  cbv zeta. split; [reflexivity|]. split; [simpl; lia|]. split; [reflexivity|].
  apply (C3_success_returns_body
           (respond 201 (PyDict [("id", PyStr "tr_42");
                                 ("status", PyStr "created")]))
           (PyStr "gpt-4") (PyStr "hi") (PyStr "hello") (PyInt 1) (PyInt 2)
           (PyInt 30) PyNone []
           {| status_code := 201;
              json_result := Ok (PyDict [("id", PyStr "tr_42");
                                         ("status", PyStr "created")]) |}
           (PyDict [("id", PyStr "tr_42"); ("status", PyStr "created")])
           (PyStr "tr_42"));
    [reflexivity | simpl; lia | reflexivity | reflexivity].
Defined.

(** The claim C4 fails: an empty dict is a metadata argument that is
    provided (it is not None), and the body sent has no metadata key. *)
Lemma C4_counterexample :
  let body :=
    build_payload (PyStr "gpt-4") (PyStr "hi") (PyStr "hello")
      (PyInt 1) (PyInt 2) (PyInt 30) (PyDict []) in
  PyDict [] <> PyNone /\
  dict_get body "metadata" = None /\
  dict_keys body = required_keys /\
  posts_of (snd (sample unreachable (PyDict []) [])) =
    [(API_URL, sample_body)].
Proof.
  cbv zeta. split; [intros H; discriminate H|].
  repeat split; reflexivity.
Qed.




(** Negative token counts are sent as they are. *)
Example negative_tokens_are_posted :
  posts_of
    (snd (create_trace unreachable (PyStr "gpt-4") (PyStr "hi") (PyStr "hello")
            (PyInt (-5)) (PyInt (-7)) (PyInt (-1)) PyNone [])) =
  [(API_URL,
    PyDict [ ("model", PyStr "gpt-4"); ("input", PyStr "hi");
             ("output", PyStr "hello"); ("prompt_tokens", PyInt (-5));
             ("output_tokens", PyInt (-7)); ("duration", PyInt (-1)) ])].
Proof. reflexivity. Qed.

Lemma C9_witness :
  truthy (PyDict []) = false /\
  build_payload (PyStr "gpt-4") (PyStr "hi") (PyStr "hello")
    (PyInt 1) (PyInt 2) (PyInt 30) (PyDict []) =
  build_payload (PyStr "gpt-4") (PyStr "hi") (PyStr "hello")
    (PyInt 1) (PyInt 2) (PyInt 30) PyNone.
Proof.
  split; [reflexivity|].
  apply (C9_falsy_metadata_omitted unreachable (PyStr "gpt-4") (PyStr "hi")
           (PyStr "hello") (PyInt 1) (PyInt 2) (PyInt 30) (PyDict []) []).
  reflexivity.
Defined.

Lemma flaky_handled (n : nat) (url : string) (body : pyval) :
  handled (flaky n url body) = true.
Proof. destruct n as [|[|[|n]]]; reflexivity. Qed.

Lemma C10_witness :
  (forall n url body, handled (flaky n url body) = true) /\
  exists w,
    main flaky [] = (Ok tt, w) /\
    posts_of w = map (fun body => (API_URL, body)) main_payloads.
Proof.
  split; [exact flaky_handled|].
  apply (C10_main_attempts_all_five flaky). exact flaky_handled.
Defined.

(** With the endpoint down for the whole run, the five POSTs are still made
    and five error lines are printed. *)
Example main_endpoint_down :
  posts_of (snd (main unreachable [])) =
    map (fun body => (API_URL, body)) main_payloads /\
  fst (main unreachable []) = Ok tt.
Proof. split; reflexivity. Qed.

End client_examples.

(** * Properties of the two OpenTelemetry scripts *)

Section emits_rules.
Import opentelemetry otel_spec.
Variable env : gmap string string.
Variable P : op -> Prop.

Lemma emits_ret {A} (a : A) : emits env P (ret a).
Proof.
  intros p r p' Henv Heq. injection Heq as <- <-.
  split; [exact Henv|]. exists []. rewrite app_nil_r. auto.
Qed.

Lemma emits_raise {A} (e : exn) : emits env P (@raise process A e).
Proof.
  intros p r p' Henv Heq. injection Heq as <- <-.
  split; [exact Henv|]. exists []. rewrite app_nil_r. auto.
Qed.

Lemma emits_record {A} (o : op) (r0 : process -> res A) :
  P o -> emits env P (fun p => (r0 p, record o p)).
Proof.
  intros Ho p r p' Henv Heq. injection Heq as <- <-.
  split; [exact Henv|]. exists [o]. simpl. auto.
Qed.

Lemma emits_call (f : faults) (o : op) : P o -> emits env P (call f o).
Proof.
  intros Ho p r p' Henv Heq. unfold call in Heq.
  destruct (f _ o); injection Heq as <- <-;
    (split; [exact Henv|]; exists [o]; simpl; auto).
Qed.

Lemma emits_print (line : list piece) :
  P (Print line) -> emits env P (print line).
Proof. intros Ho. exact (emits_record (Print line) (fun _ => Ok tt) Ho). Qed.

Lemma emits_print_exc (e : exn) :
  P (PrintExc e) -> emits env P (print_exc e).
Proof. intros Ho. exact (emits_record (PrintExc e) (fun _ => Ok tt) Ho). Qed.

Lemma emits_bind {A B} (m : M process A) (k : A -> M process B) :
  emits env P m -> (forall a, emits env P (k a)) -> emits env P (bind m k).
Proof.
  intros Hm Hk p r p' Henv Heq. unfold bind in Heq.
  destruct (m p) as [[a|e] p1] eqn:Em.
  - destruct (Hm _ _ _ Henv Em) as (Henv1 & l1 & Hl1 & HP1).
    destruct (Hk a _ _ _ Henv1 Heq) as (Henv2 & l2 & Hl2 & HP2).
    split; [exact Henv2|]. exists (l1 ++ l2).
    rewrite Hl2, Hl1, app_assoc. split; [reflexivity|].
    apply Forall_app; auto.
  - injection Heq as <- <-. exact (Hm _ _ _ Henv Em).
Qed.

Lemma emits_bind_getenv {B} (key default : string)
    (k : string -> M process B) :
  emits env P (k (match env !! key with Some v => v | None => default end)) ->
  emits env P (bind (getenv key default) k).
Proof.
  intros Hk p r p' Henv Heq. unfold bind, getenv in Heq.
  rewrite Henv in Heq.
  destruct (env !! key); exact (Hk _ _ _ Henv Heq).
Qed.

Lemma emits_try_except {A} (body : M process A) (cls : exn_class)
    (handler : exn -> M process A) :
  emits env P body -> (forall e, emits env P (handler e)) ->
  emits env P (try_except body cls handler).
Proof.
  intros Hb Hh p r p' Henv Heq. unfold try_except in Heq.
  destruct (body p) as [[a|e] p1] eqn:Eb.
  - injection Heq as <- <-. exact (Hb _ _ _ Henv Eb).
  - destruct (Hb _ _ _ Henv Eb) as (Henv1 & l1 & Hl1 & HP1).
    destruct (isinstance e cls).
    + destruct (Hh e _ _ _ Henv1 Heq) as (Henv2 & l2 & Hl2 & HP2).
      split; [exact Henv2|]. exists (l1 ++ l2).
      rewrite Hl2, Hl1, app_assoc. split; [reflexivity|].
      apply Forall_app; auto.
    + injection Heq as <- <-. eauto.
Qed.

Lemma emits_with_span (f : faults) (name : string) (body : M process unit) :
  P (SpanEnter name) -> (forall pending, P (SpanExit name pending)) ->
  emits env P body -> emits env P (with_span f name body).
Proof.
  intros Hin Hout Hb. unfold with_span.
  apply emits_bind; [apply emits_call; exact Hin|]. intros _.
  intros p r p' Henv Heq.
  destruct (body p) as [[a|e] p1] eqn:Eb;
    destruct (Hb _ _ _ Henv Eb) as (Henv1 & l1 & Hl1 & HP1).
  - destruct (emits_call f _ (Hout None) _ _ _ Henv1 Heq)
      as (Henv2 & l2 & Hl2 & HP2).
    split; [exact Henv2|]. exists (l1 ++ l2).
    rewrite Hl2, Hl1, app_assoc. split; [reflexivity|].
    apply Forall_app; auto.
  - destruct (call f (SpanExit name (Some e)) p1) as [r2 p2] eqn:Ec.
    destruct (emits_call f _ (Hout (Some e)) _ _ _ Henv1 Ec)
      as (Henv2 & l2 & Hl2 & HP2).
    assert (p' = p2) as -> by (destruct r2; injection Heq as _ <-; reflexivity).
    split; [exact Henv2|]. exists (l1 ++ l2).
    rewrite Hl2, Hl1, app_assoc. split; [reflexivity|].
    apply Forall_app; auto.
Qed.

(** What [emits] says of a whole script run. *)
Lemma emits_run_script (main : M process unit) :
  emits env P main -> Forall P (snd (run_script main env)).
Proof.
  intros Hm. unfold run_script.
  destruct (main {| environ := env; log := [] |}) as [r p] eqn:Em.
  destruct (Hm {| environ := env; log := [] |} r p eq_refl Em)
    as (_ & l & Hl & HP).
  simpl in *. rewrite Hl. exact HP.
Qed.

End emits_rules.

Section otel_properties.
Import opentelemetry otel_spec.

Lemma exporter_endpoints_Forall (ep : string) (l : list op) :
  Forall (exports_to ep) l -> Forall (eq ep) (exporter_endpoints l).
Proof.
  induction 1 as [|o l Ho _ IH]; simpl; [constructor|].
  destruct o; simpl in *; auto.
Qed.


Ltac emits_step :=
  lazymatch goal with
  | |- emits _ _ (with_span _ _ _) => apply emits_with_span; [| intros ? |]
  | |- emits _ _ (try_except _ _ _) => apply emits_try_except; [|intros ?]
  | |- emits _ _ (bind (getenv _ _) _) => apply emits_bind_getenv
  | |- emits _ _ (bind _ _) => apply emits_bind; [|intros ?]
  | |- emits _ _ (call _ _) => apply emits_call
  | |- emits _ _ (print _) => apply emits_print
  | |- emits _ _ (print_exc _) => apply emits_print_exc
  | |- emits _ _ (raise _) => apply emits_raise
  | |- emits _ _ (ret _) => apply emits_ret
  end.

Ltac solve_emits :=
  repeat emits_step; try solve [exact I | reflexivity].

Lemma python_otlp_client_exports (env : gmap string string) (f : faults) :
  emits env (exports_to (configured_endpoint env)) (python_otlp_client.main f).
Proof.
  unfold python_otlp_client.main, python_otlp_client.send_examples,
    python_otlp_client.shutdown_provider, python_otlp_client.set_attribute,
    configured_endpoint.
  solve_emits.
Qed.


Lemma otel_client_exports (env : gmap string string) (f : faults) :
  emits env (exports_to otel_client.OTLP_ENDPOINT) (otel_client.main f).
Proof.
  unfold otel_client.main, otel_client.main_try, otel_client.main_except,
    otel_client.init_tracer, otel_client.simple_trace_example,
    otel_client.nested_trace_example, otel_client.gen_ai_trace_example,
    otel_client.trace_with_events_example, otel_client.set_attribute,
    otel_client.add_event, exit.
  solve_emits.
Qed.

Lemma bind_getenv {B} (key default : string) (k : string -> M process B)
    (p : process) :
  bind (getenv key default) k p =
  k (match environ p !! key with Some v => v | None => default end) p.
Proof. unfold bind, getenv. destruct (environ p !! key); reflexivity. Qed.

Lemma python_otlp_client_run_no_faults (env : gmap string string) :
  exporter_endpoints (snd (run_script (python_otlp_client.main no_faults) env))
  = [configured_endpoint env] /\
  fst (run_script (python_otlp_client.main no_faults) env) = ExitStatus 0.
Proof.
  unfold run_script, python_otlp_client.main, configured_endpoint.
  rewrite !bind_getenv. cbn [environ].
  destruct (env !! "OTLP_ENDPOINT"); split; reflexivity.
Qed.

Lemma otel_client_run_no_faults (env : gmap string string) :
  exporter_endpoints (snd (run_script (otel_client.main no_faults) env))
  = [otel_client.OTLP_ENDPOINT] /\
  fst (run_script (otel_client.main no_faults) env) = ExitStatus 0.
Proof. split; reflexivity. Qed.

(** C5, amended: [python_otlp_client.py] builds its span exporter for the
    value of OTLP_ENDPOINT when the variable is set and for
    http://localhost:8080/v1/traces otherwise; [otel-client.py] does not read
    the environment and always builds its exporter for the constant
    http://localhost:8080/v1/traces.  For each script: whatever the SDK does,
    no exporter is built for another endpoint, and when no SDK call fails
    exactly one exporter is built. *)
Theorem C5_exporter_endpoint (env : gmap string string) (f : faults) :
  configured_endpoint env =
    match env !! "OTLP_ENDPOINT" with
    | Some v => v
    | None => "http://localhost:8080/v1/traces"
    end /\
  Forall (eq (configured_endpoint env))
    (exporter_endpoints (snd (run_script (python_otlp_client.main f) env))) /\
  exporter_endpoints (snd (run_script (python_otlp_client.main no_faults) env))
    = [configured_endpoint env] /\
  Forall (eq "http://localhost:8080/v1/traces")
    (exporter_endpoints (snd (run_script (otel_client.main f) env))) /\
  exporter_endpoints (snd (run_script (otel_client.main no_faults) env))
    = ["http://localhost:8080/v1/traces"].
Proof.
  split; [reflexivity|]. split; [|split; [|split]].
  - apply exporter_endpoints_Forall, emits_run_script,
      python_otlp_client_exports.
  - apply python_otlp_client_run_no_faults.
  - apply (exporter_endpoints_Forall otel_client.OTLP_ENDPOINT),
      emits_run_script, otel_client_exports.
  - apply otel_client_run_no_faults.
Qed.

(** The claim C5 fails for [otel-client.py]: with OTLP_ENDPOINT set, its
    exporter is still built for the default URL. *)
Lemma C5_counterexample :
  custom_env !! "OTLP_ENDPOINT" =
    Some "http://collector.internal:4318/v1/traces" /\
  exporter_endpoints (snd (run_script (otel_client.main no_faults) custom_env))
    = ["http://localhost:8080/v1/traces"] /\
  "http://localhost:8080/v1/traces" <>
    "http://collector.internal:4318/v1/traces".
Proof.
  split; [reflexivity|]. split; [reflexivity|].
  intros H. discriminate H.
Qed.

(** In the same environment [python_otlp_client.py] follows the variable. *)
Example python_otlp_client_custom_endpoint :
  exporter_endpoints
    (snd (run_script (python_otlp_client.main no_faults) custom_env))
  = ["http://collector.internal:4318/v1/traces"].
Proof. vm_compute. reflexivity. Qed.

(** An instance of [Exception] is not a [SystemExit]. *)
Lemma Exception_not_SystemExit (e : exn) :
  isinstance e Exception = true -> terminate (Raise e) = Unhandled e.
Proof.
  destruct e as [c args]. unfold terminate. simpl exn_cls.
  destruct c; intros H; try reflexivity; vm_compute in H; discriminate H.
Qed.


(** [python_otlp_client.py]: an exception of the first SDK call leaves [main]
    through no handler. *)
Lemma python_otlp_client_early_fault (env : gmap string string) (e : exn) :
  isinstance e Exception = true ->
  run_script (python_otlp_client.main (fail_on is_ResourceCreate e)) env
  = (Unhandled e,
     [ResourceCreate [ ("service.name", PyStr "python-llm-app");
                       ("service.version", PyStr "1.0.0") ]]).
Proof.
  intros He.
  assert (Hm : python_otlp_client.main (fail_on is_ResourceCreate e)
                 {| environ := env; log := [] |}
               = (Raise e,
                  {| environ := env;
                     log := [ResourceCreate
                               [ ("service.name", PyStr "python-llm-app");
                                 ("service.version", PyStr "1.0.0") ]] |})).
  { unfold python_otlp_client.main. rewrite bind_getenv. reflexivity. }
  unfold run_script. rewrite Hm, (Exception_not_SystemExit e He).
  reflexivity.
Qed.















(** The run of the witness, spelled out: the span is closed with the pending
    exception, then the handler prints and exits. *)
Example otel_client_attribute_fault :
  run_script
    (otel_client.main
       (fail_on is_SetAttribute (Exn ValueError [PyStr "invalid attribute value"])))
    ∅ =
  (ExitStatus 1,
   [ Print [Lit "OpenTelemetry Simple Traces Example Client (Python)"];
     Print [Lit "=================================================="];
     ResourceCreate [ ("service.name", PyStr "simple-traces-python-example");
                      ("service.version", PyStr "1.0.0") ];
     OTLPSpanExporterNew "http://localhost:8080/v1/traces" (Some []);
     TracerProviderNew; BatchSpanProcessorNew; AddSpanProcessor;
     SetTracerProvider;
     Print [Lit "✓ OpenTelemetry initialized with OTLP exporter"];
     Print [Lit "  Sending traces to: ";
            Fmt (PyStr "http://localhost:8080/v1/traces")];
     GetTracer "simple-traces-python-example";
     Print [Lit (newline +:+ "--- Simple Trace Example ---")];
     SpanEnter "llm.call";
     SetAttribute "llm.call" "llm.model" (PyStr "gpt-4");
     SpanExit "llm.call"
       (Some (Exn ValueError [PyStr "invalid attribute value"]));
     Print [Lit "✗ Error: ";
            FmtExn (Exn ValueError [PyStr "invalid attribute value"])];
     PrintExc (Exn ValueError [PyStr "invalid attribute value"]) ]).
Proof. vm_compute. reflexivity. Qed.

(** A [KeyboardInterrupt] is not an [Exception]: the handler of
    [otel-client.py] lets it through. *)
Example otel_client_keyboard_interrupt :
  fst (run_script
         (otel_client.main (fail_on is_SetAttribute (Exn KeyboardInterrupt [])))
         ∅)
  = Unhandled (Exn KeyboardInterrupt []).
Proof. vm_compute. reflexivity. Qed.

End otel_properties.

(** * Further properties of examples/client.py *)

Section create_trace_outcomes.
Import client client_spec.
Variable net : network.
Variables model input_text output_text prompt_tokens output_tokens
  duration_ms metadata : pyval.

Local Abbreviation payload :=
  (build_payload model input_text output_text prompt_tokens output_tokens
     duration_ms metadata).
Local Abbreviation trace :=
  (create_trace net model input_text output_text prompt_tokens output_tokens
     duration_ms metadata).




(** X3: only a 4xx or 5xx status is a failure.  A response that
    [requests.post] hands back with any other status (such as a 300 that
    carries a JSON document) is read like a 2xx: when its body has an [id],
    the body is returned and the success line printed. *)
Theorem create_trace_other_status_is_success
    (w : world) (resp : Response) (result id : pyval) :
  answer net w (PyDict payload) = Ok resp ->
  ~ (400 <= status_code resp < 600) ->
  json_result resp = Ok result ->
  getitem_str result "id" = Ok id ->
  trace w =
  (Ok result,
   w ++ [Post API_URL (PyDict payload);
         Print [Lit "✓ Trace created: "; Fmt id]]).
Proof.
  intros Hnet Hst Hjson Hget.
  assert (Hh : http_error resp = None).
  { unfold http_error.
    destruct (400 <=? status_code resp) eqn:E1;
      destruct (status_code resp <? 500) eqn:E2;
      destruct (500 <=? status_code resp) eqn:E3;
      destruct (status_code resp <? 600) eqn:E4; simpl; try reflexivity;
      exfalso; apply Hst;
      rewrite ?Z.leb_le, ?Z.ltb_lt, ?Z.leb_gt, ?Z.ltb_ge in *; lia. }
  destruct (answer_Ok _ _ _ _ Hnet) as (_ & Hsent & _).
  rewrite create_trace_cases. cbv zeta.
  rewrite Hnet, Hh, Hjson, Hget, Hsent, <- app_assoc. reflexivity.
Qed.

(** X4: when [response.json()] raises, the class of the exception decides:
    a [RequestException] is caught like a transport failure (error line,
    None returned), any other exception leaves [create_trace] with nothing
    printed. *)
Theorem create_trace_json_failure (w : world) (resp : Response) (e : exn) :
  answer net w (PyDict payload) = Ok resp ->
  http_error resp = None ->
  json_result resp = Raise e ->
  trace w =
  if isinstance e RequestException
  then (Ok PyNone,
        w ++ [Post API_URL (PyDict payload);
              Print [Lit "✗ Error creating trace: "; FmtExn e]])
  else (Raise e, w ++ [Post API_URL (PyDict payload)]).
Proof.
  intros Hnet Hh Hjson.
  destruct (answer_Ok _ _ _ _ Hnet) as (_ & Hsent & _).
  rewrite create_trace_cases. cbv zeta.
  rewrite Hnet, Hh, Hjson, Hsent.
  destruct (isinstance e RequestException);
    rewrite <- ?app_assoc; reflexivity.
Qed.

End create_trace_outcomes.

Section main_outcomes.
Import client client_spec.






End main_outcomes.

Section client_more_examples.
Import client client_spec.

Local Abbreviation sample net :=
  (create_trace net (PyStr "gpt-4") (PyStr "hi") (PyStr "hello")
     (PyInt 1) (PyInt 2) (PyInt 30) PyNone).

Local Abbreviation sample_body :=
  (PyDict [ ("model", PyStr "gpt-4"); ("input", PyStr "hi");
            ("output", PyStr "hello"); ("prompt_tokens", PyInt 1);
            ("output_tokens", PyInt 2); ("duration", PyInt 30) ]).

(** An endpoint whose [json()] raises [e]. *)
Local Abbreviation bad_json e :=
  (fun (_ : nat) (_ : string) (_ : pyval) =>
     Ok {| status_code := 200; json_result := Raise e |}).



Lemma create_trace_other_status_is_success_witness :
  let body := PyDict [("id", PyInt 7)] in
  let resp := {| status_code := 300; json_result := Ok body |} in
  answer (respond 300 body) [] sample_body = Ok resp /\
  ~ (400 <= status_code resp < 600) /\
  getitem_str body "id" = Ok (PyInt 7) /\
  sample (respond 300 body) [] =
  (Ok body,
   [Post API_URL sample_body; Print [Lit "✓ Trace created: "; Fmt (PyInt 7)]]).
Proof.
  cbv zeta. split; [reflexivity|]. split; [simpl; lia|]. split; [reflexivity|].
  apply (create_trace_other_status_is_success
           (respond 300 (PyDict [("id", PyInt 7)]))
           (PyStr "gpt-4") (PyStr "hi") (PyStr "hello") (PyInt 1) (PyInt 2)
           (PyInt 30) PyNone []
           {| status_code := 300; json_result := Ok (PyDict [("id", PyInt 7)]) |}
           (PyDict [("id", PyInt 7)]) (PyInt 7));
    [reflexivity | simpl; lia | reflexivity | reflexivity].
Defined.

Lemma create_trace_json_failure_witness :
  let e := Exn ValueError [PyStr "Expecting value"] in
  let resp := {| status_code := 200; json_result := Raise e |} in
  bad_json e 0%nat API_URL sample_body = Ok resp /\
  http_error resp = None /\
  sample (bad_json e) [] = (Raise e, [Post API_URL sample_body]).
Proof.
  cbv zeta. split; [reflexivity|]. split; [reflexivity|].
  apply (create_trace_json_failure
           (bad_json (Exn ValueError [PyStr "Expecting value"]))
           (PyStr "gpt-4") (PyStr "hi") (PyStr "hello") (PyInt 1) (PyInt 2)
           (PyInt 30) PyNone []
           {| status_code := 200;
              json_result := Raise (Exn ValueError [PyStr "Expecting value"]) |}
           (Exn ValueError [PyStr "Expecting value"]));
    reflexivity.
Defined.

(** Accepts the first request and answers the second without an [id]. *)
Local Abbreviation second_without_id :=
  (fun (n : nat) (_ : string) (_ : pyval) =>
     match n with
     | O => Ok {| status_code := 201;
                  json_result := Ok (PyDict [("id", PyInt 1)]) |}
     | _ => Ok {| status_code := 200; json_result := Ok (PyDict []) |}
     end).



End client_more_examples.

(** * Further properties of the two OpenTelemetry scripts *)

Section otel_outcomes.
Import opentelemetry otel_spec.

Ltac emits_auto :=
  repeat
    lazymatch goal with
    | |- emits _ _ (with_span _ _ _) => apply emits_with_span; [| intros ? |]
    | |- emits _ _ (try_except _ _ _) => apply emits_try_except; [|intros ?]
    | |- emits _ _ (bind (getenv _ _) _) => apply emits_bind_getenv
    | |- emits _ _ (bind _ _) => apply emits_bind; [|intros ?]
    | |- emits _ _ (call _ _) => apply emits_call
    | |- emits _ _ (print _) => apply emits_print
    | |- emits _ _ (print_exc _) => apply emits_print_exc
    | |- emits _ _ (raise _) => apply emits_raise
    | |- emits _ _ (ret _) => apply emits_ret
    end;
  try solve [exact I | reflexivity].

Lemma existsb_is_Shutdown_false (l : list op) :
  Forall not_Shutdown l -> existsb is_Shutdown l = false.
Proof.
  induction 1 as [|o l Ho _ IH]; simpl; [reflexivity|].
  unfold not_Shutdown in Ho. rewrite Ho, IH. reflexivity.
Qed.

(** X10: [otel-client.py] never ends with an unhandled instance of
    [Exception]: an exception that leaves the script is outside that class
    (such as KeyboardInterrupt). *)
Theorem otel_client_unhandled_is_no_Exception
    (f : faults) (env : gmap string string) (e : exn) :
  fst (run_script (otel_client.main f) env) = Unhandled e ->
  isinstance e Exception = false.
Proof.
  assert (Hmain : otel_client.main f {| environ := env; log := [] |}
                  = try_except (otel_client.main_try f) Exception
                      otel_client.main_except (at_try env))
    by reflexivity.
  unfold run_script. rewrite Hmain. unfold try_except.
  destruct (otel_client.main_try f (at_try env)) as [[[]|e0] p].
  - simpl. discriminate.
  - destruct (isinstance e0 Exception) eqn:Hi.
    + cbn. discriminate.
    + cbn [fst terminate]. destruct (decide _); [discriminate|].
      intros H. injection H as <-. exact Hi.
Qed.

(** X11: when the provider's shutdown fails in [python_otlp_client.py], the
    script warns that some traces may not have been exported and then still
    prints that all traces were sent successfully, as its last lines but
    one. *)
Theorem python_otlp_client_reports_success_after_failed_shutdown
    (env : gmap string string) (e : exn) :
  isinstance e Exception = true ->
  exists before,
    snd (run_script (python_otlp_client.main (fail_on is_Shutdown e)) env) =
    before ++
    [ Shutdown;
      Print [Lit "⚠ Warning: Error during shutdown: "; FmtExn e];
      Print [Lit "  Some traces may not have been fully exported"];
      Print [Lit (newline +:+ "✅ All traces sent successfully!")];
      Print [Lit "View them at: http://localhost:8080"] ].
Proof.
  intros He. unfold run_script, python_otlp_client.main.
  rewrite !bind_getenv. cbn [environ].
  generalize (match env !! "OTLP_ENDPOINT" with
              | Some v => v
              | None => "http://localhost:8080/v1/traces"
              end).
  intros ep. destruct e as [c args].
  destruct c; try (vm_compute in He; discriminate He);
    match goal with
    | |- exists before, ?run = _ =>
        let l := eval vm_compute in run in
        let n := eval vm_compute in (length l - 5)%nat in
        exists (take n l); vm_compute; reflexivity
    end.
Qed.

Lemma raises_no_Exception_print (line : list piece) :
  raises_no_Exception (print line).
Proof. intros p e p' H. discriminate H. Qed.

Lemma raises_no_Exception_bind {A B} (m : M process A) (k : A -> M process B) :
  raises_no_Exception m -> (forall a, raises_no_Exception (k a)) ->
  raises_no_Exception (bind m k).
Proof.
  intros Hm Hk p e p' H. unfold bind in H.
  destruct (m p) as [[a|e0] p1] eqn:Em.
  - exact (Hk a _ _ _ H).
  - injection H as <- <-. exact (Hm _ _ _ Em).
Qed.

Lemma raises_no_Exception_try {A} (body : M process A)
    (handler : exn -> M process A) :
  (forall e, raises_no_Exception (handler e)) ->
  raises_no_Exception (try_except body Exception handler).
Proof.
  intros Hh p e p' H. unfold try_except in H.
  destruct (body p) as [[a|e0] p1]; [discriminate H|].
  destruct (isinstance e0 Exception) eqn:Hi.
  - exact (Hh e0 _ _ _ H).
  - injection H as <- <-. exact Hi.
Qed.

Lemma fails_before_shutdown_vacuous (env : gmap string string) {A}
    (m : M process A) :
  raises_no_Exception m -> fails_before_shutdown env m.
Proof.
  intros Hm p e p' _ H Hi. rewrite (Hm _ _ _ H) in Hi. discriminate Hi.
Qed.

Lemma fails_before_shutdown_bind (env : gmap string string) {A B}
    (m : M process A) (k : A -> M process B) :
  emits env not_Shutdown m -> (forall a, fails_before_shutdown env (k a)) ->
  fails_before_shutdown env (bind m k).
Proof.
  intros Hm Hk p e p' Henv H Hi. unfold bind in H.
  destruct (m p) as [[a|e0] p1] eqn:Em;
    destruct (Hm _ _ _ Henv Em) as (Henv1 & l1 & Hl1 & HP1).
  - destruct (Hk a _ _ _ Henv1 H Hi) as (l2 & Hl2 & HP2).
    exists (l1 ++ l2). rewrite Hl2, Hl1, app_assoc.
    split; [reflexivity|]. apply Forall_app; auto.
  - injection H as <- <-. eauto.
Qed.

Lemma fails_before_shutdown_getenv (env : gmap string string) {B}
    (key default : string) (k : string -> M process B) :
  (forall v, fails_before_shutdown env (k v)) ->
  fails_before_shutdown env (bind (getenv key default) k).
Proof.
  intros Hk p e p' Henv H Hi. rewrite bind_getenv in H.
  exact (Hk _ _ _ _ Henv H Hi).
Qed.

Lemma python_otlp_client_fails_before_shutdown
    (env : gmap string string) (f : faults) :
  fails_before_shutdown env (python_otlp_client.main f).
Proof.
  unfold python_otlp_client.main.
  apply fails_before_shutdown_getenv. intros endpoint.
  repeat
    lazymatch goal with
    | |- fails_before_shutdown _
           (bind (python_otlp_client.shutdown_provider _) _) =>
        apply fails_before_shutdown_vacuous
    | |- fails_before_shutdown _ (bind _ _) =>
        apply fails_before_shutdown_bind;
        [ unfold python_otlp_client.send_examples,
            python_otlp_client.set_attribute; emits_auto
        | intros ? ]
    end.
  unfold python_otlp_client.shutdown_provider.
  repeat
    first
      [ apply raises_no_Exception_bind; [|intros ?]
      | apply raises_no_Exception_try; intros ?
      | apply raises_no_Exception_print ].
Qed.

(** X12: when [python_otlp_client.py] ends with an unhandled instance of
    [Exception], the script has not made its own call of the provider's
    [shutdown()]: the failure came before the shutdown block, which is not in
    a [finally].  Any shutdown is then left to what the SDK does by itself
    when the interpreter exits. *)
Theorem python_otlp_client_failure_skips_shutdown
    (f : faults) (env : gmap string string) (e : exn) :
  fst (run_script (python_otlp_client.main f) env) = Unhandled e ->
  isinstance e Exception = true ->
  existsb is_Shutdown (snd (run_script (python_otlp_client.main f) env))
    = false.
Proof.
  unfold run_script.
  destruct (python_otlp_client.main f {| environ := env; log := [] |})
    as [[[]|e0] p] eqn:Em; cbn [fst snd terminate]; [discriminate|].
  destruct (decide _); [discriminate|]. intros H Hi. injection H as ->.
  destruct (python_otlp_client_fails_before_shutdown env f
              {| environ := env; log := [] |} e p eq_refl Em Hi)
    as (l & Hl & HP).
  simpl in Hl. rewrite Hl. exact (existsb_is_Shutdown_false _ HP).
Qed.

End otel_outcomes.

Section span_discipline.
Import opentelemetry otel_spec.
Variable f : faults.
Hypothesis span_start_succeeds : forall n name, f n (SpanEnter name) = None.

Lemma span_scan_app (st : list string) (l1 l2 : list op) :
  span_scan st (l1 ++ l2) =
  match span_scan st l1 with
  | Some st' => span_scan st' l2
  | None => None
  end.
Proof.
  revert st. induction l1 as [|o l1 IH]; intros st; simpl; [reflexivity|].
  destruct o; try apply IH;
    destruct st as [|top below]; try reflexivity;
    destruct (String.eqb top _); try reflexivity; apply IH.
Qed.

Lemma in_span_ret (cur : list string) {A} (a : A) : in_span cur (ret a).
Proof.
  intros p r p' H. injection H as <- <-. exists []. rewrite app_nil_r. auto.
Qed.

Lemma in_span_raise (cur : list string) {A} (e : exn) :
  in_span cur (@raise process A e).
Proof.
  intros p r p' H. injection H as <- <-. exists []. rewrite app_nil_r. auto.
Qed.

Lemma in_span_record (cur : list string) {A} (o : op)
    (r0 : process -> res A) :
  span_neutral o = true -> in_span cur (fun p => (r0 p, record o p)).
Proof.
  intros Ho p r p' H. injection H as <- <-. exists [o].
  split; [reflexivity|]. intros below. destruct o; try discriminate Ho;
    reflexivity.
Qed.

Lemma in_span_call (cur : list string) (o : op) :
  span_neutral o = true -> in_span cur (call f o).
Proof.
  intros Ho p r p' H. unfold call in H.
  destruct (f _ o); injection H as <- <-; exists [o];
    (split; [reflexivity|]); intros below;
    destruct o; try discriminate Ho; reflexivity.
Qed.

Lemma in_span_print (cur : list string) (line : list piece) :
  in_span cur (print line).
Proof. exact (in_span_record cur (Print line) (fun _ => Ok tt) eq_refl). Qed.

Lemma in_span_print_exc (cur : list string) (e : exn) :
  in_span cur (print_exc e).
Proof. exact (in_span_record cur (PrintExc e) (fun _ => Ok tt) eq_refl). Qed.

(** Writing to the innermost open span. *)
Lemma in_span_set_attribute (name : string) (cur : list string)
    (key : string) (value : pyval) :
  in_span (name :: cur) (call f (SetAttribute name key value)).
Proof.
  intros p r p' H. unfold call in H.
  destruct (f _ _); injection H as <- <-; eexists;
    (split; [reflexivity|]); intros below; simpl;
    rewrite String.eqb_refl; reflexivity.
Qed.

Lemma in_span_add_event (name : string) (cur : list string)
    (event : string) (attributes : option (list (string * pyval))) :
  in_span (name :: cur) (call f (AddEvent name event attributes)).
Proof.
  intros p r p' H. unfold call in H.
  destruct (f _ _); injection H as <- <-; eexists;
    (split; [reflexivity|]); intros below; simpl;
    rewrite String.eqb_refl; reflexivity.
Qed.

Lemma in_span_bind (cur : list string) {A B}
    (m : M process A) (k : A -> M process B) :
  in_span cur m -> (forall a, in_span cur (k a)) -> in_span cur (bind m k).
Proof.
  intros Hm Hk p r p' H. unfold bind in H.
  destruct (m p) as [[a|e] p1] eqn:Em;
    destruct (Hm _ _ _ Em) as (l1 & Hl1 & Hs1).
  - destruct (Hk a _ _ _ H) as (l2 & Hl2 & Hs2).
    exists (l1 ++ l2). rewrite Hl2, Hl1, app_assoc.
    split; [reflexivity|]. intros below.
    rewrite span_scan_app, Hs1. apply Hs2.
  - injection H as <- <-. eauto.
Qed.

Lemma in_span_bind_getenv (cur : list string) {B} (key default : string)
    (k : string -> M process B) :
  (forall v, in_span cur (k v)) -> in_span cur (bind (getenv key default) k).
Proof.
  intros Hk p r p' H. rewrite bind_getenv in H. exact (Hk _ _ _ _ H).
Qed.

Lemma in_span_try_except (cur : list string) {A} (body : M process A)
    (cls : exn_class) (handler : exn -> M process A) :
  in_span cur body -> (forall e, in_span cur (handler e)) ->
  in_span cur (try_except body cls handler).
Proof.
  intros Hb Hh p r p' H. unfold try_except in H.
  destruct (body p) as [[a|e] p1] eqn:Eb;
    destruct (Hb _ _ _ Eb) as (l1 & Hl1 & Hs1).
  - injection H as <- <-. eauto.
  - destruct (isinstance e cls).
    + destruct (Hh e _ _ _ H) as (l2 & Hl2 & Hs2).
      exists (l1 ++ l2). rewrite Hl2, Hl1, app_assoc.
      split; [reflexivity|]. intros below.
      rewrite span_scan_app, Hs1. apply Hs2.
    + injection H as <- <-. eauto.
Qed.

(** A [with] block opens its span, runs its body inside it and closes it,
    also when the body raises. *)
Lemma in_span_with_span (cur : list string) (name : string)
    (body : M process unit) :
  in_span [name] body -> in_span cur (with_span f name body).
Proof.
  intros Hb p r p' H. unfold with_span, bind, call in H.
  rewrite span_start_succeeds in H.
  destruct (body (record (SpanEnter name) p)) as [[a|e] p1] eqn:Eb;
    destruct (Hb _ _ _ Eb) as (l1 & Hl1 & Hs1); simpl in Hl1.
  - destruct (f _ _); injection H as <- <-;
      exists (SpanEnter name :: l1 ++ [SpanExit name None]);
      (split; [simpl; rewrite Hl1, <- !app_assoc; reflexivity|]);
      intros below; simpl; rewrite span_scan_app;
      pose proof (Hs1 (cur ++ below)) as Hs; simpl in Hs; rewrite Hs; simpl;
      rewrite String.eqb_refl; reflexivity.
  - destruct (f _ _); injection H as <- <-;
      exists (SpanEnter name :: l1 ++ [SpanExit name (Some e)]);
      (split; [simpl; rewrite Hl1, <- !app_assoc; reflexivity|]);
      intros below; simpl; rewrite span_scan_app;
      pose proof (Hs1 (cur ++ below)) as Hs; simpl in Hs; rewrite Hs; simpl;
      rewrite String.eqb_refl; reflexivity.
Qed.

Ltac in_span_auto :=
  repeat
    lazymatch goal with
    | |- in_span _ (with_span _ _ _) => apply in_span_with_span
    | |- in_span _ (try_except _ _ _) =>
        apply in_span_try_except; [|intros ?]
    | |- in_span _ (bind (getenv _ _) _) =>
        apply in_span_bind_getenv; intros ?
    | |- in_span _ (bind _ _) => apply in_span_bind; [|intros ?]
    | |- in_span _ (call _ (SetAttribute _ _ _)) => apply in_span_set_attribute
    | |- in_span _ (call _ (AddEvent _ _ _)) => apply in_span_add_event
    | |- in_span _ (call _ _) => apply in_span_call; reflexivity
    | |- in_span _ (print _) => apply in_span_print
    | |- in_span _ (print_exc _) => apply in_span_print_exc
    | |- in_span _ (raise _) => apply in_span_raise
    | |- in_span _ (ret _) => apply in_span_ret
    end.

Lemma python_otlp_client_in_span : in_span [] (python_otlp_client.main f).
Proof.
  unfold python_otlp_client.main, python_otlp_client.send_examples,
    python_otlp_client.shutdown_provider, python_otlp_client.set_attribute.
  in_span_auto.
Qed.

Lemma otel_client_in_span : in_span [] (otel_client.main f).
Proof.
  unfold otel_client.main, otel_client.main_try, otel_client.main_except,
    otel_client.init_tracer, otel_client.simple_trace_example,
    otel_client.nested_trace_example, otel_client.gen_ai_trace_example,
    otel_client.trace_with_events_example, otel_client.set_attribute,
    otel_client.add_event, exit.
  in_span_auto.
Qed.

Lemma in_span_run_script (main : M process unit) (env : gmap string string) :
  in_span [] main -> span_scan [] (snd (run_script main env)) = Some [].
Proof.
  intros Hm. unfold run_script.
  destruct (main {| environ := env; log := [] |}) as [r p] eqn:Em.
  destruct (Hm _ _ _ Em) as (l & Hl & Hs). simpl in *.
  rewrite Hl. exact (Hs []).
Qed.

(** X13: spans are well nested in both OpenTelemetry scripts on every path.
    As long as starting a span does not fail, whatever else the SDK raises,
    every span a script opens is closed again, innermost first, also when the
    run is cut short by an exception; and every attribute and event is
    written to the innermost span open at that moment. *)
Theorem otel_scripts_spans_well_nested (env : gmap string string) :
  span_scan [] (snd (run_script (python_otlp_client.main f) env)) = Some [] /\
  span_scan [] (snd (run_script (otel_client.main f) env)) = Some [].
Proof.
  split; apply in_span_run_script;
    [apply python_otlp_client_in_span | apply otel_client_in_span].
Qed.

End span_discipline.

Section pipeline_order.
Import opentelemetry otel_spec.
Variable env : gmap string string.
Variable f : faults.

Ltac emits_auto :=
  repeat
    lazymatch goal with
    | |- emits _ _ (with_span _ _ _) => apply emits_with_span; [| intros ? |]
    | |- emits _ _ (try_except _ _ _) => apply emits_try_except; [|intros ?]
    | |- emits _ _ (bind (getenv _ _) _) => apply emits_bind_getenv
    | |- emits _ _ (bind _ _) => apply emits_bind; [|intros ?]
    | |- emits _ _ (call _ _) => apply emits_call
    | |- emits _ _ (print _) => apply emits_print
    | |- emits _ _ (print_exc _) => apply emits_print_exc
    | |- emits _ _ (raise _) => apply emits_raise
    | |- emits _ _ (ret _) => apply emits_ret
    end;
  try solve [exact I | reflexivity].

Lemma pipeline_step_ready (s : pipeline) (o : op) :
  pipeline_ready s = true -> pipeline_ready (pipeline_step s o) = true.
Proof.
  destruct s as [[] [] []]; try discriminate; intros _;
    destruct o; reflexivity.
Qed.

(** Once the pipeline is ready, every history passes. *)
Lemma pipeline_scan_ready (n : nat) (s : pipeline) (l : list op) :
  pipeline_ready s = true -> pipeline_scan f n s l <> None.
Proof.
  revert n s. induction l as [|o l IH]; intros n s Hs; simpl; [discriminate|].
  rewrite Hs, andb_false_r. apply IH.
  destruct (f n o); [exact Hs|apply pipeline_step_ready, Hs].
Qed.

(** A history that starts no span passes from every pipeline. *)
Lemma pipeline_scan_no_span (n : nat) (s : pipeline) (l : list op) :
  Forall not_SpanEnter l -> pipeline_scan f n s l <> None.
Proof.
  intros Hl. revert n s. induction Hl as [|o l Ho _ IH]; intros n s; simpl;
    [discriminate|].
  unfold not_SpanEnter in Ho. rewrite Ho. simpl. apply IH.
Qed.

Lemma pipeline_scan_app (n : nat) (s : pipeline) (l1 l2 : list op) :
  pipeline_scan f n s (l1 ++ l2) =
  match pipeline_scan f n s l1 with
  | Some s' => pipeline_scan f (n + length l1) s' l2
  | None => None
  end.
Proof.
  revert n s. induction l1 as [|o l1 IH]; intros n s; simpl.
  - rewrite Nat.add_0_r. reflexivity.
  - destruct (is_SpanEnter o && negb (pipeline_ready s)); [reflexivity|].
    rewrite IH. replace (S n + length l1)%nat with (n + S (length l1))%nat by lia.
    reflexivity.
Qed.

Lemma pipeline_safe_ready (s : pipeline) {A} (m : M process A) :
  pipeline_ready s = true -> emits env any_op m -> pipeline_safe env f s m.
Proof.
  intros Hs Hm p r p' Henv H.
  destruct (Hm _ _ _ Henv H) as (Henv' & l & Hl & _).
  split; [exact Henv'|]. exists l. split; [exact Hl|].
  apply pipeline_scan_ready, Hs.
Qed.

(** A setup call: when it fails the run of the chain ends there; when it
    succeeds it counts for the pipeline. *)
Lemma pipeline_safe_bind_call (s : pipeline) {B} (o : op)
    (k : unit -> M process B) :
  is_SpanEnter o = false ->
  (forall a, pipeline_safe env f (pipeline_step s o) (k a)) ->
  pipeline_safe env f s (bind (call f o) k).
Proof.
  intros Ho Hk p r p' Henv H. unfold bind, call in H.
  destruct (f (length (log p)) o) eqn:Ef.
  - injection H as <- <-. split; [exact Henv|]. exists [o].
    split; [reflexivity|]. simpl. rewrite Ho. discriminate.
  - destruct (Hk tt (record o p) r p' Henv H) as (Henv' & l & Hl & Hs).
    split; [exact Henv'|]. exists (o :: l). simpl in Hl.
    split; [rewrite Hl, <- app_assoc; reflexivity|].
    simpl. rewrite Ho, Ef. simpl.
    unfold record in Hs. cbn [log] in Hs.
    rewrite length_app in Hs. simpl in Hs.
    rewrite Nat.add_1_r in Hs. exact Hs.
Qed.

Lemma pipeline_safe_bind_print (s : pipeline) {B} (line : list piece)
    (k : unit -> M process B) :
  (forall a, pipeline_safe env f s (k a)) ->
  pipeline_safe env f s (bind (print line) k).
Proof.
  intros Hk p r p' Henv H. unfold bind, print in H.
  destruct (Hk tt (record (Print line) p) r p' Henv H)
    as (Henv' & l & Hl & Hs).
  split; [exact Henv'|]. exists (Print line :: l). simpl in Hl.
  split; [rewrite Hl, <- app_assoc; reflexivity|].
  simpl. unfold record in Hs. cbn [log] in Hs.
  rewrite length_app in Hs. simpl in Hs. rewrite Nat.add_1_r in Hs.
  destruct (f (length (log p)) (Print line)); exact Hs.
Qed.

Lemma pipeline_safe_bind_getenv (s : pipeline) {B} (key default : string)
    (k : string -> M process B) :
  (forall v, pipeline_safe env f s (k v)) ->
  pipeline_safe env f s (bind (getenv key default) k).
Proof.
  intros Hk p r p' Henv H. rewrite bind_getenv in H.
  exact (Hk _ _ _ _ Henv H).
Qed.

Lemma pipeline_safe_assoc (s : pipeline) {A B C} (m : M process A)
    (k1 : A -> M process B) (k2 : B -> M process C) :
  pipeline_safe env f s (bind m (fun a => bind (k1 a) k2)) ->
  pipeline_safe env f s (bind (bind m k1) k2).
Proof.
  intros Hm p r p' Henv H. apply (Hm p r p' Henv).
  unfold bind in *. destruct (m p) as [[a|e] p1]; exact H.
Qed.

Lemma pipeline_safe_try_except (s : pipeline) {A} (body : M process A)
    (cls : exn_class) (handler : exn -> M process A) :
  pipeline_safe env f s body ->
  (forall e, emits env not_SpanEnter (handler e)) ->
  pipeline_safe env f s (try_except body cls handler).
Proof.
  intros Hb Hh p r p' Henv H. unfold try_except in H.
  destruct (body p) as [[a|e] p1] eqn:Eb;
    destruct (Hb _ _ _ Henv Eb) as (Henv1 & l1 & Hl1 & Hs1).
  - injection H as <- <-. eauto.
  - destruct (isinstance e cls).
    + destruct (Hh e _ _ _ Henv1 H) as (Henv2 & l2 & Hl2 & HP2).
      split; [exact Henv2|]. exists (l1 ++ l2).
      rewrite Hl2, Hl1, app_assoc. split; [reflexivity|].
      rewrite pipeline_scan_app.
      destruct (pipeline_scan f (length (log p)) s l1) as [s1|]; [|congruence].
      apply pipeline_scan_no_span, HP2.
    + injection H as <- <-. eauto.
Qed.

Ltac pipeline_setup_step :=
  lazymatch goal with
  | |- pipeline_safe _ _ _ (bind (bind _ _) _) => apply pipeline_safe_assoc
  | |- pipeline_safe _ _ _ (bind (getenv _ _) _) =>
      apply pipeline_safe_bind_getenv; intros ?
  | |- pipeline_safe _ _ _ (bind (call _ _) _) =>
      apply pipeline_safe_bind_call; [reflexivity|intros ?];
      cbn [pipeline_step exporter_built processor_added provider_set]
  end.

Lemma python_otlp_client_pipeline_safe :
  pipeline_safe env f no_pipeline (python_otlp_client.main f).
Proof.
  unfold python_otlp_client.main, no_pipeline.
  do 9 pipeline_setup_step.
  apply pipeline_safe_ready; [reflexivity|].
  unfold python_otlp_client.send_examples,
    python_otlp_client.shutdown_provider, python_otlp_client.set_attribute.
  emits_auto.
Qed.

Lemma otel_client_pipeline_safe :
  pipeline_safe env f no_pipeline (otel_client.main f).
Proof.
  unfold otel_client.main, no_pipeline.
  do 2 (apply pipeline_safe_bind_print; intros ?).
  apply pipeline_safe_try_except;
    [|intros ?; unfold otel_client.main_except, exit; emits_auto].
  unfold otel_client.main_try, otel_client.init_tracer.
  do 12 pipeline_setup_step.
  apply pipeline_safe_ready; [reflexivity|].
  unfold otel_client.simple_trace_example, otel_client.nested_trace_example,
    otel_client.gen_ai_trace_example, otel_client.trace_with_events_example,
    otel_client.set_attribute, otel_client.add_event.
  emits_auto.
Qed.

Lemma pipeline_safe_run_script (main : M process unit) :
  pipeline_safe env f no_pipeline main ->
  pipeline_scan f 0 no_pipeline (snd (run_script main env)) <> None.
Proof.
  intros Hm. unfold run_script.
  destruct (main {| environ := env; log := [] |}) as [r p] eqn:Em.
  destruct (Hm {| environ := env; log := [] |} r p eq_refl Em)
    as (_ & l & Hl & Hs).
  simpl in *. rewrite Hl. exact Hs.
Qed.

(** What an accepted history says at a span start, for one part of the
    pipeline: the part was in place from the beginning, or a call of its
    kind succeeded earlier in the history. *)
Lemma pipeline_scan_sound (flag : pipeline -> bool) (kind : op -> bool) :
  (forall s, pipeline_ready s = true -> flag s = true) ->
  (forall s o, flag (pipeline_step s o) = true ->
               flag s = true \/ kind o = true) ->
  forall l n s i name,
    pipeline_scan f n s l <> None ->
    l !! i = Some (SpanEnter name) ->
    flag s = true \/
    exists j o,
      (j < i)%nat /\ l !! j = Some o /\ kind o = true /\
      f (n + j)%nat o = None.
Proof.
  intros Hready Hstep. induction l as [|o l IH]; intros n s i name Hs Hi.
  - discriminate Hi.
  - simpl in Hs.
    destruct (is_SpanEnter o && negb (pipeline_ready s)) eqn:Hc;
      [congruence|].
    destruct i as [|i].
    + injection Hi as ->. simpl in Hc. left. apply Hready.
      destruct (pipeline_ready s); [reflexivity|discriminate Hc].
    + simpl in Hi.
      destruct (IH _ _ _ _ Hs Hi) as [Hf | (j & o' & Hj & Hl & Hk & Hn)].
      * destruct (f n o) eqn:Ef; [left; exact Hf|].
        destruct (Hstep _ _ Hf) as [Hf'|Hk]; [left; exact Hf'|].
        right. exists 0%nat, o. rewrite Nat.add_0_r.
        repeat split; [lia|exact Hk|exact Ef].
      * right. exists (S j), o'.
        replace (n + S j)%nat with (S n + j)%nat by lia.
        repeat split; [lia|exact Hl|exact Hk|exact Hn].
Qed.

Lemma span_start_needs_setup (l : list op) (i : nat) (name : string) :
  pipeline_scan f 0 no_pipeline l <> None ->
  l !! i = Some (SpanEnter name) ->
  succeeded_before f l i is_exporter /\
  succeeded_before f l i is_AddSpanProcessor /\
  succeeded_before f l i is_SetTracerProvider.
Proof.
  intros Hs Hi. unfold succeeded_before. repeat split.
  - destruct (pipeline_scan_sound exporter_built is_exporter) with
      (l := l) (n := 0%nat) (s := no_pipeline) (i := i) (name := name)
      as [Hf|H]; auto.
    + intros [[] [] []]; simpl; auto.
    + intros s o; destruct o; simpl; auto.
    + discriminate Hf.
  - destruct (pipeline_scan_sound processor_added is_AddSpanProcessor) with
      (l := l) (n := 0%nat) (s := no_pipeline) (i := i) (name := name)
      as [Hf|H]; auto.
    + intros [[] [] []]; simpl; auto.
    + intros s o; destruct o; simpl; auto.
    + discriminate Hf.
  - destruct (pipeline_scan_sound provider_set is_SetTracerProvider) with
      (l := l) (n := 0%nat) (s := no_pipeline) (i := i) (name := name)
      as [Hf|H]; auto.
    + intros [[] [] []]; simpl; auto.
    + intros s o; destruct o; simpl; auto.
    + discriminate Hf.
Qed.

(** X14: in both OpenTelemetry scripts, on every path and whatever the SDK
    raises, a span is started only after the exporter was built, the span
    processor was added to the provider and the provider was registered,
    each by a call that succeeded earlier in the run.  So when one of these
    setup calls fails, the run ends (or reaches the handler) with no span
    started. *)
Theorem otel_scripts_start_spans_after_setup :
  let python := snd (run_script (python_otlp_client.main f) env) in
  let otel := snd (run_script (otel_client.main f) env) in
  (spans_follow_setup f python /\
   no_span_without f python is_exporter /\
   no_span_without f python is_AddSpanProcessor /\
   no_span_without f python is_SetTracerProvider) /\
  (spans_follow_setup f otel /\
   no_span_without f otel is_exporter /\
   no_span_without f otel is_AddSpanProcessor /\
   no_span_without f otel is_SetTracerProvider).
Proof.
  assert (Hgen : forall history,
             pipeline_scan f 0 no_pipeline history <> None ->
             spans_follow_setup f history /\
             no_span_without f history is_exporter /\
             no_span_without f history is_AddSpanProcessor /\
             no_span_without f history is_SetTracerProvider).
  { intros history Hscan.
    assert (Hneed : spans_follow_setup f history).
    { intros i name Hi. exact (span_start_needs_setup _ _ _ Hscan Hi). }
    split; [exact Hneed|].
    repeat split; intros Hfail;
      (destruct (existsb is_SpanEnter history) eqn:Hex; [|reflexivity]);
      exfalso; apply existsb_exists in Hex; destruct Hex as (o & Hin & Ho);
      (destruct o; try discriminate Ho);
      apply list_elem_of_In, list_elem_of_lookup in Hin;
      destruct Hin as [i Hi];
      destruct (Hneed i name Hi) as (H1 & H2 & H3).
    - destruct H1 as (j & o & _ & Hl & Hk & Hn). exact (Hfail j o Hl Hk Hn).
    - destruct H2 as (j & o & _ & Hl & Hk & Hn). exact (Hfail j o Hl Hk Hn).
    - destruct H3 as (j & o & _ & Hl & Hk & Hn). exact (Hfail j o Hl Hk Hn). }
  cbv zeta. split; apply Hgen, pipeline_safe_run_script;
    [apply python_otlp_client_pipeline_safe|apply otel_client_pipeline_safe].
Qed.

End pipeline_order.

Section otel_more_examples.
Import opentelemetry otel_spec.

Lemma otel_client_unhandled_is_no_Exception_witness :
  let e := Exn KeyboardInterrupt [] in
  fst (run_script (otel_client.main (fail_on is_SetAttribute e)) ∅)
    = Unhandled e /\
  isinstance e Exception = false.
Proof.
  cbv zeta. split; [vm_compute; reflexivity|].
  apply (otel_client_unhandled_is_no_Exception
           (fail_on is_SetAttribute (Exn KeyboardInterrupt [])) ∅).
  vm_compute. reflexivity.
Defined.

Lemma python_otlp_client_reports_success_after_failed_shutdown_witness :
  let e := Exn RuntimeError [PyStr "export timed out"] in
  isinstance e Exception = true /\
  exists before,
    snd (run_script (python_otlp_client.main (fail_on is_Shutdown e)) ∅) =
    before ++
    [ Shutdown;
      Print [Lit "⚠ Warning: Error during shutdown: "; FmtExn e];
      Print [Lit "  Some traces may not have been fully exported"];
      Print [Lit (newline +:+ "✅ All traces sent successfully!")];
      Print [Lit "View them at: http://localhost:8080"] ].
Proof.
  cbv zeta. split; [reflexivity|].
  apply (python_otlp_client_reports_success_after_failed_shutdown ∅
           (Exn RuntimeError [PyStr "export timed out"])).
  reflexivity.
Defined.

Lemma python_otlp_client_failure_skips_shutdown_witness :
  let e := Exn ValueError [PyStr "invalid attribute value"] in
  let f := fail_on is_SetAttribute e in
  fst (run_script (python_otlp_client.main f) ∅) = Unhandled e /\
  isinstance e Exception = true /\
  existsb is_Shutdown (snd (run_script (python_otlp_client.main f) ∅)) = false.
Proof.
  cbv zeta. split; [vm_compute; reflexivity|]. split; [reflexivity|].
  apply (python_otlp_client_failure_skips_shutdown
           (fail_on is_SetAttribute
              (Exn ValueError [PyStr "invalid attribute value"]))
           ∅ (Exn ValueError [PyStr "invalid attribute value"]));
    [vm_compute; reflexivity | reflexivity].
Defined.

Lemma otel_scripts_spans_well_nested_witness :
  let f := fail_on is_SetAttribute (Exn ValueError []) in
  (forall n name, f n (SpanEnter name) = None) /\
  span_scan [] (snd (run_script (python_otlp_client.main f) ∅)) = Some [] /\
  span_scan [] (snd (run_script (otel_client.main f) ∅)) = Some [].
Proof.
  cbv zeta. split; [intros n name; reflexivity|].
  apply (otel_scripts_spans_well_nested
           (fail_on is_SetAttribute (Exn ValueError []))).
  intros n name. reflexivity.
Defined.

(** The checks are not vacuous: a span closed out of order, an attribute
    written to an outer span, a span started before the processor is added
    and a span started after a failed registration of the provider are all
    refused. *)
Example span_scan_refuses :
  span_scan [] [SpanEnter "a"; SpanEnter "b"; SpanExit "a" None] = None /\
  span_scan []
    [SpanEnter "a"; SpanEnter "b"; SetAttribute "a" "k" PyNone] = None /\
  pipeline_scan no_faults 0 no_pipeline
    [OTLPSpanExporterNew "u" None; SetTracerProvider; SpanEnter "a"] = None /\
  pipeline_scan (fail_on is_SetTracerProvider (Exn RuntimeError [])) 0
    no_pipeline
    [OTLPSpanExporterNew "u" None; AddSpanProcessor; SetTracerProvider;
     SpanEnter "a"] = None.
Proof. repeat split; reflexivity. Qed.

(** When starting a span is what fails, the failed start stays in the
    history without an exit: the hypothesis of the nesting property is
    needed. *)
Example failed_span_start_is_not_closed :
  span_scan []
    (snd (run_script
            (python_otlp_client.main
               (fail_on is_SpanEnter (Exn RuntimeError [])))
            ∅))
  = Some ["llm-chat-completion"].
Proof. vm_compute. reflexivity. Qed.

End otel_more_examples.
